(** * A shallow embedding of [scraper.py] (class [WebScraper])

    The development follows the source file top to bottom:

    - [PyStr]: the [str] methods the scraper calls ([lower], [endswith],
      [strip], [split('#')[0]], [isalpha], [isdigit], [in]);
    - [OsPath]: [os.path.basename], [os.path.splitext], [os.path.join] of
      [posixpath];
    - [FILE_TYPES] and [get_download_folder];
    - an effect monad over the crawler state (queue, visited set, file
      system, event trace) with exceptions, and in it [fetch_page],
      [download_file], [extract_links_and_files] and [run].

    A Python [str] is a sequence of code points.  Here it is a [string]
    whose characters are read as the code points U+0000..U+00FF; the
    character tables below are those of Python for that range.

    The imported libraries ([urllib.parse], [bs4]) are not part of the
    program: the scraper is parameterised by them (record [library]), and
    the remote servers by an oracle.  The library functions are total
    here: the [ValueError] that [urlparse] raises on a malformed
    bracketed host, and [KeyboardInterrupt], are outside the model: what
    is stated of a call that the model lets return is stated of the
    code when its call returns.  The file system is the set of
    directories and the map from paths to contents; paths are compared
    as strings, and a directory can be made wherever [os.makedirs] is
    called (its failure below a regular file is outside the model). *)

From Stdlib Require Import Ascii ZArith Lia.
From stdpp Require Import base decidable option list gmap strings.

Local Open Scope Z_scope.

(** ** Python [str] *)

Module PyStr.

Definition chars (s : string) : list ascii := String.list_ascii_of_string s.
Definition of_chars (l : list ascii) : string := String.string_of_list_ascii l.

(** The code point of a character. *)
Definition ord (c : ascii) : Z := Z.of_N (N_of_ascii c).
Definition chr (n : Z) : ascii := ascii_of_N (Z.to_N n).

Definition between (lo hi n : Z) : bool := (lo <=? n) && (n <=? hi).

(** [c.isupper()] for one character: A-Z, and the Latin-1 capitals
    U+00C0..U+00D6 and U+00D8..U+00DE. *)
Definition isupper (c : ascii) : bool :=
  let n := ord c in
  between 65 90 n || between 192 214 n || between 216 222 n.

(** [c.isalpha()]: general categories L*.  Below U+0100 these are the
    ASCII letters, U+00AA, U+00B5, U+00BA, U+00C0..U+00D6,
    U+00D8..U+00F6 and U+00F8..U+00FF. *)
Definition isalpha (c : ascii) : bool :=
  let n := ord c in
  between 65 90 n || between 97 122 n
  || (n =? 170) || (n =? 181) || (n =? 186)
  || between 192 214 n || between 216 246 n || between 248 255 n.

(** [c.isdecimal()]: category Nd; below U+0100 the ASCII digits. *)
Definition isdecimal (c : ascii) : bool := between 48 57 (ord c).

(** [c.isdigit()]: the decimals and the superscripts U+00B2, U+00B3,
    U+00B9. *)
Definition isdigit (c : ascii) : bool :=
  let n := ord c in
  between 48 57 n || (n =? 178) || (n =? 179) || (n =? 185).

(** [c.isnumeric()]: the digits and the fractions U+00BC..U+00BE. *)
Definition isnumeric (c : ascii) : bool :=
  isdigit c || between 188 190 (ord c).

(** [c.isalnum()] is [isalpha or isdecimal or isdigit or isnumeric]. *)
Definition isalnum (c : ascii) : bool :=
  isalpha c || isdecimal c || isdigit c || isnumeric c.

(** [c.isspace()]: U+0009..U+000D, U+001C..U+0020, U+0085, U+00A0. *)
Definition isspace (c : ascii) : bool :=
  let n := ord c in
  between 9 13 n || between 28 32 n || (n =? 133) || (n =? 160).

(** One character of [s.lower()]: every capital below U+0100 has its
    small letter 32 code points above. *)
Definition lower_char (c : ascii) : ascii :=
  if isupper c then chr (ord c + 32) else c.

Definition lower (s : string) : string :=
  of_chars (lower_char <$> chars s).

(** [s.endswith(suffix)] and [s.startswith(prefix)]. *)
Definition endswith (s suffix : string) : bool :=
  bool_decide (chars suffix `suffix_of` chars s).

Definition startswith (s p : string) : bool :=
  bool_decide (chars p `prefix_of` chars s).

(** [sub in s] for strings. *)
Fixpoint contains_chars (l sub : list ascii) : bool :=
  bool_decide (sub `prefix_of` l)
  || match l with
     | [] => false
     | _ :: l' => contains_chars l' sub
     end.

Definition contains (s sub : string) : bool :=
  contains_chars (chars s) (chars sub).

(** [s.strip()]: whitespace removed at both ends. *)
Fixpoint lstrip_chars (l : list ascii) : list ascii :=
  match l with
  | c :: l' => if isspace c then lstrip_chars l' else l
  | [] => []
  end.

Definition rstrip_chars (l : list ascii) : list ascii :=
  reverse (lstrip_chars (reverse l)).

Definition strip (s : string) : string :=
  of_chars (rstrip_chars (lstrip_chars (chars s))).

(** [s.split(sep)[0]] for a one-character separator: the part of [s]
    before the first [sep], all of [s] when there is none. *)
Fixpoint before_first (sep : ascii) (l : list ascii) : list ascii :=
  match l with
  | [] => []
  | c :: l' => if decide (c = sep) then [] else c :: before_first sep l'
  end.

Definition split_first (s : string) (sep : ascii) : string :=
  of_chars (before_first sep (chars s)).

(** [s.rfind(c)] for a one-character [c]: the last index, or -1. *)
Fixpoint rfind_from (c : ascii) (l : list ascii) (i : Z) (found : Z) : Z :=
  match l with
  | [] => found
  | x :: l' => rfind_from c l' (i + 1) (if decide (x = c) then i else found)
  end.

Definition rfind (s : string) (c : ascii) : Z := rfind_from c (chars s) 0 (-1).

(** Slices [s[i:]] and [s[:i]] for [0 <= i]. *)
Definition slice_from (s : string) (i : Z) : string :=
  of_chars (drop (Z.to_nat i) (chars s)).
Definition slice_to (s : string) (i : Z) : string :=
  of_chars (take (Z.to_nat i) (chars s)).

(** The comprehension [[c for c in s if keep c]] joined by [""]. *)
Definition join_filter (keep : ascii → bool) (s : string) : string :=
  of_chars (filter (λ c, keep c = true) (chars s)).

End PyStr.

(** ** [os.path] (the [posixpath] flavour) *)

Module OsPath.
Import PyStr.

Definition sep : ascii := "/"%char.
Definition extsep : ascii := "."%char.

(** [basename(p)]: [i = p.rfind('/') + 1; return p[i:]]. *)
Definition basename (p : string) : string :=
  slice_from p (rfind p sep + 1).

(** The [while] loop of [genericpath._splitext]: is some character in
    [p[filenameIndex:dotIndex]] not a dot? *)
Fixpoint has_non_dot (l : list ascii) : bool :=
  match l with
  | [] => false
  | c :: l' => if decide (c = extsep) then has_non_dot l' else true
  end.

(** [splitext(p)]: the extension starts at the last dot, unless that
    dot comes before the last separator or only dots precede it in the
    last component. *)
Definition splitext (p : string) : string * string :=
  let sepIndex := rfind p sep in
  let dotIndex := rfind p extsep in
  if (sepIndex <? dotIndex)
     && has_non_dot (drop (Z.to_nat (sepIndex + 1))
                          (take (Z.to_nat dotIndex) (chars p)))
  then (slice_to p dotIndex, slice_from p dotIndex)
  else (p, "").

(** [join(a, *p)]: a component that starts with the separator restarts
    the path; otherwise components are glued with one separator. *)
Definition join_step (path b : string) : string :=
  if startswith b "/" then b
  else if bool_decide (path = "") || endswith path "/" then path +:+ b
  else path +:+ "/" +:+ b.

Definition join (a : string) (p : list string) : string :=
  foldl join_step a p.

End OsPath.

(** ** The extension table *)

(** [FILE_TYPES]: a dict literal, iterated in insertion order. *)
Definition FILE_TYPES : list (string * list string) :=
  [ ("pdf",    [".pdf"]);
    ("docs",   [".doc"; ".docx"; ".txt"; ".rtf"]);
    ("ppt",    [".ppt"; ".pptx"]);
    ("xls",    [".xls"; ".xlsx"; ".csv"]);
    ("zip",    [".zip"; ".rar"; ".7z"; ".tar"; ".gz"]);
    ("images", [".jpg"; ".jpeg"; ".png"; ".gif"; ".bmp"; ".svg"]) ].

(** [table[key]] for a key of the table. *)
Fixpoint getitem (table : list (string * list string)) (key : string)
  : list string :=
  match table with
  | [] => []
  | (k, v) :: rest => if bool_decide (k = key) then v else getitem rest key
  end.

(** The loop of [get_download_folder] over the items of a table. *)
Fixpoint lookup_folder (items : list (string * list string)) (extension : string)
  : string :=
  match items with
  | [] => "others"
  | (folder, exts) :: rest =>
      if bool_decide (extension ∈ exts) then folder
      else lookup_folder rest extension
  end.

(** [WebScraper.get_download_folder]. *)
Definition get_download_folder (extension : string) : string :=
  lookup_folder FILE_TYPES extension.

(** The fixed set of storage categories of the specification. *)
Definition categories : list string :=
  ["pdf"; "docs"; "ppt"; "xls"; "zip"; "images"; "others"].

(** ** The imported libraries *)

(** What [urlparse(url)] returns, as far as the scraper reads it. *)
Record ParseResult := {
  netloc : string;
  path : string
}.

(** One tag of a parsed document: its name and its attribute dict. *)
Record Tag := {
  name : string;
  attrs : gmap string string
}.

(** [urllib.parse] and [bs4], as the scraper imports them.
    [BeautifulSoup html] stands for [BeautifulSoup(html, 'html.parser')]
    read as the sequence of its tags in document order, the order in
    which [find_all] returns them. *)
Record library := {
  urlparse : string → ParseResult;
  urljoin : string → string → string;
  unquote : string → string;
  BeautifulSoup : string → list Tag
}.

(** ** The outside world *)

(** An HTTP response: [body] is the sequence of chunks in which the body
    arrives; [intact = false] means the connection breaks after the last
    of them. *)
Record Response := {
  status_code : Z;
  content_type : option string;
  body : list string;
  intact : bool
}.

(** What a GET meets: no response at all (connection error, timeout), or
    a response. *)
Inductive reply :=
| NoReply
| Reply (r : Response).

(** [response.text]. *)
Definition text (r : Response) : string := foldr String.app "" (body r).

(** Exceptions, all of them subclasses of [Exception]. *)
Inductive exn :=
| RequestException
| HTTPError (status : Z)
| OSError (p : string).

(** The lines the scraper prints. *)
Inductive message :=
| Visiting (url : string)
| NotFound404 (url : string)
| Forbidden403 (url : string)
| ConnectionError (attempt retries : Z)
| SkippingDuplicate (filename : string)
| FoundFile (filename : string)
| Downloaded (save_path : string)
| FailedToDownload (file_url : string) (e : exn).

(** Observable effects, in the order they happen. *)
Inductive event :=
| Print (m : message)
| Get (url : string) (stream : bool) (timeout : Z)
| Sleep (seconds : Z)
| OpenWrite (p : string)
| WriteChunk (p : string) (chunk : string).

(** The mutable state: the two containers of the [WebScraper] object,
    the file system ([files] maps a path to its content, [dirs] is the
    set of directories) and the trace of effects so far, oldest first. *)
Record state := {
  queue : list string;
  visited_urls : gset string;
  files : gmap string string;
  dirs : gset string;
  trace : list event
}.

(** The attributes of a [WebScraper] that are set once in [__init__]. *)
Record WebScraper := {
  base_url : string;
  domain : string;
  target_extensions : list string
}.

Definition base_download_path : string := "downloads".

(** ** Computations with state and exceptions *)

Inductive outcome (A : Type) :=
| Return (a : A)
| Raise (e : exn).
Arguments Return {A} a.
Arguments Raise {A} e.

Definition M (A : Type) : Type := state → outcome A * state.

Definition ret {A} (a : A) : M A := λ st, (Return a, st).
Definition raise {A} (e : exn) : M A := λ st, (Raise e, st).

Definition bind {A B} (m : M A) (k : A → M B) : M B :=
  λ st, match m st with
        | (Return a, st') => k a st'
        | (Raise e, st') => (Raise e, st')
        end.

(** [try: body / except <class>: handler]; [catches e] says whether the
    exception is an instance of the class. *)
Definition try_except {A} (body : M A) (catches : exn → bool) (handler : exn → M A)
  : M A :=
  λ st, match body st with
        | (Return a, st') => (Return a, st')
        | (Raise e, st') => if catches e then handler e st' else (Raise e, st')
        end.

Declare Scope py_scope.
Delimit Scope py_scope with py.
Bind Scope py_scope with M.
Notation "'let!' x := m 'in' k" := (bind m (λ x, k))
  (at level 10, x name, m at level 100, k at level 200,
   format "'[v' 'let!'  x  :=  m  'in'  '/' k ']'") : py_scope.
Notation "m >> k" := (bind m (λ _, k))
  (at level 100, k at level 200, right associativity,
   format "'[v' m  >>  '/' k ']'") : py_scope.
Local Open Scope py_scope.

(** [for x in xs: body x], with no [break] or [return] inside. *)
Fixpoint for_each {A} (xs : list A) (body : A → M unit) : M unit :=
  match xs with
  | [] => ret tt
  | x :: rest => body x >> for_each rest body
  end.

(** *** Primitive effects *)

(** Updates of one field of the state. *)
Definition log (st : state) (es : list event) : state :=
  {| queue := queue st; visited_urls := visited_urls st; files := files st;
     dirs := dirs st; trace := trace st ++ es |}.

Definition set_files (st : state) (fs : gmap string string) : state :=
  {| queue := queue st; visited_urls := visited_urls st; files := fs;
     dirs := dirs st; trace := trace st |}.

Definition set_dirs (st : state) (ds : gset string) : state :=
  {| queue := queue st; visited_urls := visited_urls st; files := files st;
     dirs := ds; trace := trace st |}.

Definition set_queue (st : state) (q : list string) : state :=
  {| queue := q; visited_urls := visited_urls st; files := files st;
     dirs := dirs st; trace := trace st |}.

Definition set_visited (st : state) (v : gset string) : state :=
  {| queue := queue st; visited_urls := v; files := files st;
     dirs := dirs st; trace := trace st |}.

Definition emit (e : event) : M unit := λ st, (Return tt, log st [e]).

Definition print (m : message) : M unit := emit (Print m).

(** [time.sleep(seconds)]. *)
Definition sleep (seconds : Z) : M unit := emit (Sleep seconds).

(** The number of GET requests sent so far. *)
Definition is_get (e : event) : bool :=
  match e with Get _ _ _ => true | _ => false end.

Definition requests_sent (t : list event) : nat :=
  length (filter (λ e, is_get e = true) t).

(** The number of files opened for writing so far. *)
Definition is_open (e : event) : bool :=
  match e with OpenWrite _ => true | _ => false end.

Definition files_opened (t : list event) : nat :=
  length (filter (λ e, is_open e = true) t).

(** The URLs announced by [fetch_page] so far, oldest first. *)
Definition visits (t : list event) : list string :=
  omap (λ e, match e with Print (Visiting url) => Some url | _ => None end) t.

(** [os.path.exists(p)]. *)
Definition path_exists (st : state) (p : string) : bool :=
  bool_decide (p ∈ dirs st) || bool_decide (is_Some (files st !! p)).

Definition os_path_exists (p : string) : M bool :=
  λ st, (Return (path_exists st p), st).

(** [os.makedirs(p)]. *)
Definition os_makedirs (p : string) : M unit :=
  λ st, (Return tt, set_dirs st ({[p]} ∪ dirs st)).

(** The directory in which the file system looks up the last component
    of [p]: the text before the last separator. *)
Definition dirname (p : string) : string :=
  PyStr.slice_to p (PyStr.rfind p OsPath.sep).

(** [open(p, 'wb')]: the directory of [p] must exist and [p] must not be
    a directory; the file is created, or truncated. *)
Definition can_open (st : state) (p : string) : bool :=
  bool_decide (dirname p ∈ dirs st) && negb (bool_decide (p ∈ dirs st)).

Definition open_wb (p : string) : M unit :=
  λ st, if can_open st p
        then (Return tt, log (set_files st (<[p := ""]> (files st))) [OpenWrite p])
        else (Raise (OSError p), st).

(** [f.write(chunk)] on the file opened at [p]. *)
Definition write (p chunk : string) : M unit :=
  λ st, (Return tt,
         log (set_files st (<[p := default "" (files st !! p) +:+ chunk]> (files st)))
             [WriteChunk p chunk]).

Definition get_visited : M (gset string) := λ st, (Return (visited_urls st), st).

(** [self.visited_urls.add(url)]. *)
Definition visited_add (url : string) : M unit :=
  λ st, (Return tt, set_visited st ({[url]} ∪ visited_urls st)).

(** [self.queue.put(url)]. *)
Definition queue_put (url : string) : M unit :=
  λ st, (Return tt, set_queue st (queue st ++ [url])).

(** [self.queue.get()], guarded by [self.queue.empty()]: [None] when the
    queue is empty. *)
Definition queue_get : M (option string) :=
  λ st, match queue st with
        | [] => (Return None, st)
        | url :: rest => (Return (Some url), set_queue st rest)
        end.

(** ** The scraper *)

Section Scraper.

Context (py : library).
(** [web n url]: what the [n]-th GET of the run (counting from 0) meets
    when it asks for [url]. *)
Context (web : nat → string → reply).

(** [requests.get(url, headers=..., stream=stream, timeout=timeout)].
    Without [stream] the whole body is read before [get] returns, so a
    broken body is a [RequestException] of [get] itself. *)
Definition requests_get (url : string) (stream : bool) (timeout : Z) : M Response :=
  λ st,
    let st' := log st [Get url stream timeout] in
    match web (requests_sent (trace st)) url with
    | NoReply => (Raise RequestException, st')
    | Reply r =>
        if stream || intact r then (Return r, st')
        else (Raise RequestException, st')
    end.

(** [r.raise_for_status()]: statuses 400..599 raise. *)
Definition raise_for_status (r : Response) : M unit :=
  if (400 <=? status_code r) && (status_code r <? 600)
  then raise (HTTPError (status_code r))
  else ret tt.

(** [soup.find_all(names, attr=True)]. *)
Definition find_all (soup : list Tag) (names : list string) (attr : string)
  : list Tag :=
  filter (λ tag, name tag ∈ names ∧ is_Some (attrs tag !! attr)) soup.

(** [tag[attr]] for a tag that has the attribute. *)
Definition getattr (tag : Tag) (attr : string) : string :=
  default "" (attrs tag !! attr).

(** [create_directories]. *)
Definition create_directories : M unit :=
  let! present := os_path_exists base_download_path in
  (if present then ret tt else os_makedirs base_download_path) >>
  for_each (fst <$> FILE_TYPES) (λ folder,
    let p := OsPath.join base_download_path [folder] in
    let! present := os_path_exists p in
    if present then ret tt else os_makedirs p).

(** [__init__]: the attributes, the empty queue and visited set, and
    the directories. *)
Definition init (base_url : string) (target_extensions : list string)
  : M WebScraper :=
  (λ st, (Return tt, set_visited (set_queue st []) ∅)) >>
  create_directories >>
  ret {| base_url := base_url;
         domain := netloc (urlparse py base_url);
         target_extensions := target_extensions |}.

(** [is_internal_link]. *)
Definition is_internal_link (self : WebScraper) (url : string) : bool :=
  bool_decide (netloc (urlparse py url) = domain self).

(** [is_target_file]. *)
Definition is_target_file (self : WebScraper) (url : string) : bool :=
  let parsed := urlparse py url in
  let p := PyStr.lower (path parsed) in
  existsb (λ ext, PyStr.endswith p ext) (target_extensions self).

Definition is_RequestException (e : exn) : bool :=
  match e with RequestException => true | _ => false end.

(** The [for i in range(retries)] loop of [fetch_page].  The [try]
    block evaluates to [Some v] where the source executes [return v],
    and to [None] where control reaches the end of the loop body. *)
Fixpoint fetch_attempts (url : string) (retries : Z) (range : list Z)
  : M (option Response) :=
  match range with
  | [] => ret None
  | i :: rest =>
      let! returned :=
        try_except
          (let! response := requests_get url false 10 in
           if status_code response =? 200 then ret (Some (Some response))
           else if status_code response =? 404 then
             print (NotFound404 url) >> ret (Some None)
           else if status_code response =? 403 then
             print (Forbidden403 url) >> ret (Some None)
           else ret None)
          is_RequestException
          (λ e, print (ConnectionError (i + 1) retries) >> sleep 2 >> ret None) in
      match returned with
      | Some v => ret v
      | None => fetch_attempts url retries rest
      end
  end.

(** [fetch_page]. *)
Definition fetch_page (url : string) : M (option Response) :=
  print (Visiting url) >>
  let retries := 3 in
  fetch_attempts url retries (seqZ 0 retries).

(** The filter of the filename clean-up:
    [c.isalpha() or c.isdigit() or c in (' ', '.', '_', '-')]. *)
Definition keep_char (c : ascii) : bool :=
  PyStr.isalpha c || PyStr.isdigit c
  || bool_decide (c ∈ [" "; "."; "_"; "-"]%char).

(** ["".join([c for c in filename if ...]).strip()]. *)
Definition clean_filename (filename : string) : string :=
  PyStr.strip (PyStr.join_filter keep_char filename).

(** The name under which [download_file] stores [file_url]. *)
Definition filename_of (file_url : string) : string :=
  let parsed_url := urlparse py file_url in
  let filename := unquote py (OsPath.basename (path parsed_url)) in
  let filename := clean_filename filename in
  if bool_decide (filename = "") then "downloaded_file" else filename.

Definition folder_of (filename : string) : string :=
  let ext := (OsPath.splitext filename).2 in
  get_download_folder (PyStr.lower ext).

Definition save_path_of (file_url : string) : string :=
  let filename := filename_of file_url in
  OsPath.join base_download_path [folder_of filename; filename].

(** The body of the [try] block of [download_file]. *)
Definition download_file_body (file_url : string) : M unit :=
  let filename := filename_of file_url in
  let save_path := save_path_of file_url in
  let! duplicate := os_path_exists save_path in
  if duplicate then print (SkippingDuplicate filename)
  else
    print (FoundFile filename) >>
    let! r := requests_get file_url true 20 in
    raise_for_status r >>
    open_wb save_path >>
    for_each (body r) (write save_path) >>
    (if intact r then ret tt else raise RequestException) >>
    print (Downloaded save_path).

(** [download_file]: [except Exception] catches every exception. *)
Definition download_file (file_url : string) : M unit :=
  try_except (download_file_body file_url)
    (λ _, true)
    (λ e, print (FailedToDownload file_url e)).

(** The URL the first loop of [extract_links_and_files] works with:
    joined to the current URL, then cut at the first [#]. *)
Definition resolve_href (current_url href : string) : string :=
  let full_url := urljoin py current_url href in
  PyStr.split_first full_url "#".

(** The first loop of [extract_links_and_files], over the tags that
    [find_all] returned, with the local list [new_links]. *)
Fixpoint scan_hrefs (self : WebScraper) (current_url : string)
    (tags : list Tag) (new_links : list string) : M (list string) :=
  match tags with
  | [] => ret new_links
  | tag :: rest =>
      let href := getattr tag "href" in
      let full_url := resolve_href current_url href in
      if bool_decide (full_url = "") then
        scan_hrefs self current_url rest new_links
      else if is_target_file self full_url then
        download_file full_url >>
        scan_hrefs self current_url rest new_links
      else
        let! visited := get_visited in
        if is_internal_link self full_url && negb (bool_decide (full_url ∈ visited))
        then scan_hrefs self current_url rest (new_links ++ [full_url])
        else scan_hrefs self current_url rest new_links
  end.

(** The body of the second loop, over the [img] tags. *)
Definition scan_img (self : WebScraper) (current_url : string) (img : Tag)
  : M unit :=
  let src := getattr img "src" in
  let full_url := urljoin py current_url src in
  if is_target_file self full_url then download_file full_url else ret tt.

(** [extract_links_and_files], on the parsed document. *)
Definition extract_from_soup (self : WebScraper) (soup : list Tag)
    (current_url : string) : M (list string) :=
  let! new_links :=
    scan_hrefs self current_url (find_all soup ["a"; "link"] "href") [] in
  (if existsb (λ ext, bool_decide (ext ∈ target_extensions self))
              (getitem FILE_TYPES "images")
   then for_each (find_all soup ["img"] "src") (scan_img self current_url)
   else ret tt) >>
  ret new_links.

(** [extract_links_and_files]. *)
Definition extract_links_and_files (self : WebScraper) (html_content : string)
    (current_url : string) : M (list string) :=
  extract_from_soup self (BeautifulSoup py html_content) current_url.

(** What [run] does with a response of [fetch_page]. *)
Definition handle_response (self : WebScraper) (current_url : string)
    (response : option Response) : M unit :=
  match response with
  | Some response =>
      let content_type := PyStr.lower (default "" (content_type response)) in
      if PyStr.contains content_type "text/html" then
        let! links := extract_links_and_files self (text response) current_url in
        for_each links (λ link,
          let! visited := get_visited in
          if bool_decide (link ∈ visited) then ret tt else queue_put link)
      else ret tt
  | None => ret tt
  end.

(** One round of the [while not self.queue.empty()] loop of [run]:
    [false] when the queue is empty and the loop ends. *)
Definition iteration (self : WebScraper) : M bool :=
  let! next := queue_get in
  match next with
  | None => ret false
  | Some current_url =>
      let! visited := get_visited in
      if bool_decide (current_url ∈ visited) then ret true
      else
        visited_add current_url >>
        let! response := fetch_page current_url in
        handle_response self current_url response >>
        ret true
  end.

(** At most [rounds] rounds of the loop; [true] when the loop has
    ended within them. *)
Fixpoint crawl (self : WebScraper) (rounds : nat) : M bool :=
  match rounds with
  | O => ret false
  | S n =>
      let! again := iteration self in
      if again then crawl self n else ret true
  end.

(** [run], cut off after [rounds] rounds of its loop. *)
Definition run (self : WebScraper) (rounds : nat) : M bool :=
  queue_put (base_url self) >> crawl self rounds.

End Scraper.

(** ** The menu *)

(** [get_extensions_by_mode]: mode 1 is the PDF list, mode 2 the
    concatenation written in the source (the [docs] list comes twice),
    mode 3 the loop that extends [all_exts] by every list of the table,
    in the order of the table; any other mode gives the empty list. *)
Definition get_extensions_by_mode (mode : Z) : list string :=
  if mode =? 1 then getitem FILE_TYPES "pdf"
  else if mode =? 2 then
    getitem FILE_TYPES "docs" ++ getitem FILE_TYPES "ppt"
    ++ getitem FILE_TYPES "xls" ++ getitem FILE_TYPES "zip"
    ++ getitem FILE_TYPES "docs"
  else if mode =? 3 then
    foldl (λ all_exts ext_list, all_exts ++ ext_list) [] (snd <$> FILE_TYPES)
  else [].

(** ** The case test over any alphabet

    [PyStr] reads a character as one of the code points
    U+0000..U+00FF.  What [is_target_file] does with the case of
    letters depends on the case tables of all of [str], so the test is
    modelled here a second time, over any type of code points, with
    [str.lower] as a parameter. *)

Module UStr.

Section Alphabet.
Context {char : Type} `{!EqDecision char}.
(** [s.lower()]. *)
Context (lower : list char → list char).

(** [s.endswith(suffix)]. *)
Definition endswith (s suffix : list char) : bool :=
  bool_decide (suffix `suffix_of` s).

(** [is_target_file]; [path_of url] stands for [urlparse(url).path]. *)
Definition is_target_file (path_of : list char → list char)
    (target_extensions : list (list char)) (url : list char) : bool :=
  let path := lower (path_of url) in
  existsb (λ ext, endswith path ext) target_extensions.

(** A string none of whose characters [lower] would change. *)
Definition lowered (s : list char) : Prop :=
  Forall (λ c, lower [c] = [c]) s.

End Alphabet.

(** The code points U+0000..U+00FF and U+03D2, GREEK UPSILON WITH HOOK
    SYMBOL: an uppercase letter (category Lu) that has no lower-case
    form. *)
Inductive code_point :=
| Latin1 (c : ascii)
| U03D2.

#[global] Instance code_point_eq_dec : EqDecision code_point.
Proof. solve_decision. Defined.

(** [c.isupper()]. *)
Definition isupper (c : code_point) : bool :=
  match c with
  | Latin1 a => PyStr.isupper a
  | U03D2 => true
  end.

(** [s.lower()] on these code points: character by character. *)
Definition lower_char (c : code_point) : code_point :=
  match c with
  | Latin1 a => Latin1 (PyStr.lower_char a)
  | U03D2 => U03D2
  end.

Definition lower (s : list code_point) : list code_point := lower_char <$> s.

Definition of_string (s : string) : list code_point := Latin1 <$> PyStr.chars s.

(** [urlparse(url).path] for a URL of the shape [scheme://host/path],
    without parameters, query or fragment: the text from the third
    slash on. *)
Fixpoint url_path (slashes : nat) (url : list code_point) : list code_point :=
  match url with
  | [] => []
  | c :: rest =>
      if decide (c = Latin1 "/") then
        match slashes with
        | 2%nat => url
        | _ => url_path (S slashes) rest
        end
      else url_path slashes rest
  end.

End UStr.

(** ** A reference model of the imported libraries

    Used to run the scraper on concrete pages.  [urlparse], [urljoin]
    and [unquote] follow [urllib.parse] on URLs without whitespace or
    control characters and without brackets in the host; [unquote]
    decodes the escapes [%00]..[%7F] and keeps the others as written
    (Python decodes those as UTF-8, which leaves the alphabet used
    here). *)

Module Urllib.
Import PyStr.

Definition uses_relative : list string :=
  [""; "ftp"; "http"; "gopher"; "nntp"; "imap"; "wais"; "file"; "https";
   "shttp"; "mms"; "prospero"; "rtsp"; "rtsps"; "rtspu"; "sftp"; "svn";
   "svn+ssh"; "ws"; "wss"].

Definition uses_netloc : list string :=
  [""; "ftp"; "http"; "gopher"; "nntp"; "telnet"; "imap"; "wais"; "file";
   "mms"; "https"; "shttp"; "snews"; "prospero"; "rtsp"; "rtsps"; "rtspu";
   "rsync"; "svn"; "svn+ssh"; "sftp"; "nfs"; "git"; "git+ssh"; "ws"; "wss";
   "itms-services"].

Definition uses_params : list string :=
  [""; "ftp"; "hdl"; "prospero"; "http"; "imap"; "https"; "shttp"; "rtsp";
   "rtsps"; "rtspu"; "sip"; "sips"; "mms"; "sftp"; "tel"].

Definition ascii_letter (c : ascii) : bool :=
  between 65 90 (ord c) || between 97 122 (ord c).

Definition scheme_char (c : ascii) : bool :=
  ascii_letter c || between 48 57 (ord c)
  || bool_decide (c ∈ ["+"; "-"; "."]%char).

(** [s.partition(sep)]: the parts before and after the first [sep];
    the flag tells whether [sep] occurs. *)
Fixpoint partition (sep : ascii) (l : list ascii)
  : list ascii * bool * list ascii :=
  match l with
  | [] => ([], false, [])
  | c :: l' =>
      if decide (c = sep) then ([], true, l')
      else let '(h, found, t) := partition sep l' in (c :: h, found, t)
  end.

(** [s.split(sep)]. *)
Fixpoint split (sep : ascii) (l : list ascii) : list (list ascii) :=
  match l with
  | [] => [[]]
  | c :: l' =>
      if decide (c = sep) then [] :: split sep l'
      else match split sep l' with
           | h :: t => (c :: h) :: t
           | [] => [[c]]
           end
  end.

(** [sep.join(parts)]. *)
Fixpoint join (sep : ascii) (parts : list (list ascii)) : list ascii :=
  match parts with
  | [] => []
  | [p] => p
  | p :: rest => p ++ sep :: join sep rest
  end.

Record SplitResult := {
  s_scheme : list ascii;
  s_netloc : list ascii;
  s_path : list ascii;
  s_params : list ascii;
  s_query : list ascii;
  s_fragment : list ascii
}.

(** The scheme of [urlsplit]: the text before the first colon, when it
    starts with an ASCII letter and consists of scheme characters. *)
Definition split_scheme (default_scheme url : list ascii)
  : list ascii * list ascii :=
  let '(head, found, rest) := partition ":" url in
  match head with
  | c :: _ =>
      if found && ascii_letter c && forallb scheme_char head
      then (lower_char <$> head, rest)
      else (default_scheme, url)
  | [] => (default_scheme, url)
  end.

Fixpoint host_chars (l : list ascii) : list ascii :=
  match l with
  | [] => []
  | c :: l' =>
      if bool_decide (c ∈ ["/"; "?"; "#"]%char) then [] else c :: host_chars l'
  end.

(** The host part: after [//], up to the first of [/], [?], [#]. *)
Definition split_netloc (url : list ascii) : list ascii * list ascii :=
  match url with
  | "/"%char :: "/"%char :: rest =>
      (host_chars rest, drop (length (host_chars rest)) rest)
  | _ => ([], url)
  end.

(** [_splitparams]: the parameters start at the first [;] of the last
    path segment. *)
Definition split_params (scheme url : list ascii) : list ascii * list ascii :=
  if bool_decide (of_chars scheme ∈ uses_params) then
    let segments := split "/" url in
    let '(h, _, params) := partition ";" (List.last segments []) in
    (join "/" (removelast segments ++ [h]), params)
  else (url, []).

(** [urlparse(url, scheme)]. *)
Definition parse (default_scheme url : list ascii) : SplitResult :=
  let '(scheme, url) := split_scheme default_scheme url in
  let '(netloc, url) := split_netloc url in
  let '(url, _, fragment) := partition "#" url in
  let '(url, _, query) := partition "?" url in
  let '(url, params) := split_params scheme url in
  {| s_scheme := scheme; s_netloc := netloc; s_path := url;
     s_params := params; s_query := query; s_fragment := fragment |}.

Definition urlparse (url : string) : ParseResult :=
  let r := parse [] (chars url) in
  {| netloc := of_chars (s_netloc r); path := of_chars (s_path r) |}.

(** [urlunparse]. *)
Definition unparse (r : SplitResult) : list ascii :=
  let url := if bool_decide (s_params r = []) then s_path r
             else s_path r ++ ";"%char :: s_params r in
  let url :=
    if negb (bool_decide (s_netloc r = []))
       || (negb (bool_decide (s_scheme r = []))
           && bool_decide (of_chars (s_scheme r) ∈ uses_netloc)
           && negb (bool_decide (take 2 url = ["/"; "/"]%char)))
    then
      let url := match url with
                 | [] => url
                 | "/"%char :: _ => url
                 | _ => "/"%char :: url
                 end in
      "/"%char :: "/"%char :: s_netloc r ++ url
    else url in
  let url := if bool_decide (s_scheme r = []) then url
             else s_scheme r ++ ":"%char :: url in
  let url := if bool_decide (s_query r = []) then url
             else url ++ "?"%char :: s_query r in
  if bool_decide (s_fragment r = []) then url
  else url ++ "#"%char :: s_fragment r.

(** The dot-segment loop of [urljoin]. *)
Fixpoint resolve (segments resolved_path : list (list ascii))
  : list (list ascii) :=
  match segments with
  | [] => resolved_path
  | seg :: rest =>
      if bool_decide (seg = [".";"."]%char) then resolve rest (removelast resolved_path)
      else if bool_decide (seg = ["."]%char) then resolve rest resolved_path
      else resolve rest (resolved_path ++ [seg])
  end.

(** [segments[1:-1] = filter(None, segments[1:-1])]. *)
Definition drop_empty_inner (segments : list (list ascii)) : list (list ascii) :=
  match segments with
  | [] => []
  | [s] => [s]
  | s :: rest =>
      s :: filter (λ x, x ≠ []) (removelast rest) ++ [List.last rest []]
  end.

Definition join_chars (base url : list ascii) : list ascii :=
  if bool_decide (base = []) then url
  else if bool_decide (url = []) then base
  else
    let b := parse [] base in
    let u := parse (s_scheme b) url in
    if negb (bool_decide (s_scheme u = s_scheme b))
       || negb (bool_decide (of_chars (s_scheme u) ∈ uses_relative))
    then url
    else if bool_decide (of_chars (s_scheme u) ∈ uses_netloc)
            && negb (bool_decide (s_netloc u = []))
    then unparse u
    else
      let netloc := if bool_decide (of_chars (s_scheme u) ∈ uses_netloc)
                    then s_netloc b else s_netloc u in
      if bool_decide (s_path u = []) && bool_decide (s_params u = []) then
        unparse {| s_scheme := s_scheme u; s_netloc := netloc;
                   s_path := s_path b; s_params := s_params b;
                   s_query := if bool_decide (s_query u = [])
                              then s_query b else s_query u;
                   s_fragment := s_fragment u |}
      else
        let base_parts := split "/" (s_path b) in
        let base_parts := if bool_decide (List.last base_parts [] = [])
                          then base_parts else removelast base_parts in
        let segments :=
          match s_path u with
          | "/"%char :: _ => split "/" (s_path u)
          | _ => drop_empty_inner (base_parts ++ split "/" (s_path u))
          end in
        let resolved_path := resolve segments [] in
        let resolved_path :=
          if bool_decide (List.last segments [] ∈ [["."]; ["."; "."]]%char)
          then resolved_path ++ [[]] else resolved_path in
        let joined := join "/" resolved_path in
        unparse {| s_scheme := s_scheme u; s_netloc := netloc;
                   s_path := if bool_decide (joined = []) then ["/"%char]
                             else joined;
                   s_params := s_params u; s_query := s_query u;
                   s_fragment := s_fragment u |}.

Definition urljoin (base url : string) : string :=
  of_chars (join_chars (chars base) (chars url)).

Definition hex_digit (c : ascii) : option Z :=
  let n := ord c in
  if between 48 57 n then Some (n - 48)
  else if between 65 70 n then Some (n - 55)
  else if between 97 102 n then Some (n - 87)
  else None.

Fixpoint unquote_chars (l : list ascii) : list ascii :=
  match l with
  | "%"%char :: rest =>
      match rest with
      | h :: rest' =>
          match rest' with
          | d :: rest'' =>
              match hex_digit h, hex_digit d with
              | Some x, Some y =>
                  if 16 * x + y <? 128
                  then chr (16 * x + y) :: unquote_chars rest''
                  else "%"%char :: unquote_chars rest
              | _, _ => "%"%char :: unquote_chars rest
              end
          | [] => "%"%char :: unquote_chars rest
          end
      | [] => ["%"%char]
      end
  | c :: rest => c :: unquote_chars rest
  | [] => []
  end.

Definition unquote (s : string) : string := of_chars (unquote_chars (chars s)).

(** A parser given by a table of documents and their tags; other
    documents have no tags. *)
Fixpoint soup_of (pages : list (string * list Tag)) (html : string) : list Tag :=
  match pages with
  | [] => []
  | (doc, tags) :: rest =>
      if bool_decide (doc = html) then tags else soup_of rest html
  end.

Definition lib (pages : list (string * list Tag)) : library :=
  Build_library urlparse urljoin unquote (soup_of pages).
End Urllib.

(** ** The scenario of the specification

    Seed [https://example.com], target extensions [[".pdf"]], and a page
    with three links.  Every GET is answered with a small PDF. *)

Module Scenario.

Definition seed : string := "https://example.com".

Definition page_html : string :=
  "<a href='/a.html'>A</a><a href='/doc.pdf'>D</a><a href='https://other.com/x.pdf'>X</a>".

Definition anchor (href : string) : Tag :=
  {| name := "a"; attrs := {[ "href" := href ]} |}.

Definition page_tags : list Tag :=
  [anchor "/a.html"; anchor "/doc.pdf"; anchor "https://other.com/x.pdf"].

Definition py : library := Urllib.lib [(page_html, page_tags)].

Definition pdf : Response :=
  {| status_code := 200; content_type := Some "application/pdf";
     body := ["%PDF-1.4 "; "%%EOF"]; intact := true |}.

Definition web : nat → string → reply := λ _ _, Reply pdf.

(** Nothing on disk, nothing printed yet. *)
Definition fresh : state :=
  {| queue := []; visited_urls := ∅; files := ∅; dirs := ∅; trace := [] |}.

(** The state after [WebScraper(seed, [".pdf"])]. *)
Definition started : state := (init py seed [".pdf"] fresh).2.

(** A server whose PDF breaks off after the first chunk. *)
Definition breaking : nat → string → reply :=
  λ _ _, Reply {| status_code := 200; content_type := Some "application/pdf";
                  body := ["%PDF-1.4 "]; intact := false |}.

(** A site of two pages that link to each other and to one PDF. *)
Definition home_html : string :=
  "<a href='/a.html'>A</a><a href='/doc.pdf'>D</a>".

Definition a_html : string :=
  "<a href='https://example.com'>home</a><a href='/doc.pdf#page=2'>D</a>".

Definition site_py : library :=
  Urllib.lib [(home_html, [anchor "/a.html"; anchor "/doc.pdf"]);
              (a_html, [anchor "https://example.com"; anchor "/doc.pdf#page=2"])].

Definition html (doc : string) : Response :=
  {| status_code := 200; content_type := Some "text/html; charset=utf-8";
     body := [doc]; intact := true |}.

Definition site : nat → string → reply :=
  λ _ url,
    if bool_decide (url = "https://example.com") then Reply (html home_html)
    else if bool_decide (url = "https://example.com/a.html") then Reply (html a_html)
    else if bool_decide (url = "https://example.com/doc.pdf") then Reply pdf
    else NoReply.

(** Construct the scraper, then run the crawl for some rounds. *)
Definition crawl_site (rounds : nat) : M bool :=
  let! self := init site_py seed [".pdf"] in
  run site_py site self rounds.

(** Construct the scraper, then extract the page fetched at the seed. *)
Definition extraction (web : nat → string → reply) : M (list string) :=
  let! self := init py seed [".pdf"] in
  extract_links_and_files py web self page_html seed.

End Scenario.

(** ** Vocabulary of the properties *)

(** A capital letter occurs in [ext]. *)
Definition has_upper (ext : string) : bool :=
  existsb PyStr.isupper (PyStr.chars ext).

(** A status for which [raise_for_status] does not raise. *)
Definition http_ok (r : Response) : bool :=
  negb ((400 <=? status_code r) && (status_code r <? 600)).

(** The URLs that the first loop of the extractor adds to [new_links]:
    non-empty, not a target file, internal, not yet visited. *)
Definition crawlable (py : library) (self : WebScraper) (st : state)
    (url : string) : Prop :=
  url ≠ ""
  ∧ is_target_file py self url = false
  ∧ is_internal_link py self url = true
  ∧ url ∉ visited_urls st.

#[global] Instance crawlable_dec py self st url : Decision (crawlable py self st url).
Proof. unfold crawlable. apply _. Defined.

(** Every URL announced by [fetch_page] is in the visited set, and none
    is announced twice. *)
Definition visited_once (st : state) : Prop :=
  NoDup (visits (trace st))
  ∧ ∀ url, url ∈ visits (trace st) → url ∈ visited_urls st.

(** The seconds slept in a trace. *)
Definition slept (t : list event) : Z :=
  foldr (λ e total, match e with Sleep seconds => seconds + total | _ => total end) 0 t.

(** The attempts of a trace that met no response. *)
Definition is_failure (e : event) : bool :=
  match e with Print (ConnectionError _ _) => true | _ => false end.

Definition failed_attempts (t : list event) : nat :=
  length (filter (λ e, is_failure e = true) t).

(** What one [if not os.path.exists(p): os.makedirs(p)] leaves. *)
Definition ensure_dir (st : state) (p : string) : state :=
  if path_exists st p then st else set_dirs st ({[p]} ∪ dirs st).

(** The directories of [create_directories]: the base, then one per key
    of the table. *)
Definition category_dirs : list string :=
  (λ folder, OsPath.join base_download_path [folder]) <$> (fst <$> FILE_TYPES).

Definition download_dirs : list string := base_download_path :: category_dirs.

(** An event that the download pipeline can produce. *)
Definition download_event (e : event) : Prop :=
  match e with
  | Print (SkippingDuplicate _) | Print (FoundFile _) | Print (Downloaded _)
  | Print (FailedToDownload _ _) => True
  | Get _ stream timeout => stream = true ∧ timeout = 20
  | OpenWrite _ | WriteChunk _ _ => True
  | _ => False
  end.

(** The pages requested in a trace: the URLs of its plain GETs, the
    ones that are not streamed. *)
Definition pages_requested (t : list event) : list string :=
  omap (λ e, match e with Get url false _ => Some url | _ => None end) t.

(** A URL on the host of the scraper: the seed, or a URL whose network
    location is the domain of the scraper. *)
Definition on_host (py : library) (self : WebScraper) (url : string) : Prop :=
  url = base_url self ∨ netloc (urlparse py url) = domain self.

(** The course of [fetch_page] told round by round, as the amended
    C3 has it: [meets k] is what the [k]-th GET of the call meets,
    [range] the rounds that are left.  A round that meets no intact
    response prints the failure, pauses and goes on; status 200 ends
    the call with the response; 404 and 403 end it with a line and
    [None]; any other status goes on at once; when no round is left
    the result is [None].  The value is the result and the events. *)
Fixpoint fetch_course (url : string) (retries : Z) (meets : nat → reply)
    (range : list Z) : option Response * list event :=
  match range with
  | [] => (None, [])
  | i :: rest =>
      let get := Get url false 10 in
      let failed := [get; Print (ConnectionError (i + 1) retries); Sleep 2] in
      let later := fetch_course url retries (λ k, meets (S k)) rest in
      match meets 0%nat with
      | NoReply => (later.1, failed ++ later.2)
      | Reply r =>
          if negb (intact r) then (later.1, failed ++ later.2)
          else if status_code r =? 200 then (Some r, [get])
          else if status_code r =? 404 then (None, [get; Print (NotFound404 url)])
          else if status_code r =? 403 then (None, [get; Print (Forbidden403 url)])
          else (later.1, get :: later.2)
      end
  end.

(** [full] is [v], or [v] followed by a fragment. *)
Definition with_fragment (v full : string) : Prop :=
  full = v ∨ ∃ f, full = v +:+ "#" +:+ f.

(** * Properties *)

(** ** Strings *)

Module PyStrFacts.
Import PyStr.

Lemma chars_of_chars l : chars (of_chars l) = l.
Proof. apply String.list_ascii_of_string_of_list_ascii. Qed.

Lemma of_chars_chars s : of_chars (chars s) = s.
Proof. apply String.string_of_list_ascii_of_string. Qed.

Lemma chars_inj s t : chars s = chars t → s = t.
Proof. intros H. rewrite <- (of_chars_chars s), H. apply of_chars_chars. Qed.

Lemma chars_app s t : chars (s +:+ t) = chars s ++ chars t.
Proof.
  induction s as [|a s IH]; [done|].
  change (a :: chars (s +:+ t) = a :: chars s ++ chars t). by rewrite IH.
Qed.

Lemma of_chars_app l k : of_chars (l ++ k) = of_chars l +:+ of_chars k.
Proof.
  induction l as [|a l IH]; [done|].
  change (String a (of_chars (l ++ k)) = String a (of_chars l +:+ of_chars k)).
  by rewrite IH.
Qed.

Lemma app_empty_r s : s +:+ "" = s.
Proof.
  apply chars_inj. rewrite chars_app. apply app_nil_r.
Qed.

(** Case analysis over the 256 characters. *)
Ltac all_chars c :=
  destruct c as [[] [] [] [] [] [] [] []]; vm_compute; try done.

Lemma lower_char_not_upper c : isupper (lower_char c) = false.
Proof. all_chars c. Qed.

Lemma lower_no_upper s : Forall (λ c, isupper c = false) (chars (lower s)).
Proof.
  unfold lower. rewrite chars_of_chars. apply Forall_fmap, Forall_true.
  intros c. apply lower_char_not_upper.
Qed.

Lemma lower_fixed s :
  Forall (λ c, isupper c = false) (chars s) → lower s = s.
Proof.
  intros H. unfold lower. rewrite <- (of_chars_chars s) at 2. f_equal.
  induction H as [|c l Hc _ IH]; [done|]. simpl. f_equal; [|done].
  unfold lower_char. by rewrite Hc.
Qed.

Lemma endswith_true s e : endswith s e = true ↔ chars e `suffix_of` chars s.
Proof. unfold endswith. apply bool_decide_eq_true. Qed.

Lemma isalpha_isalnum c : isalpha c = true → isalnum c = true.
Proof. unfold isalnum. by intros ->. Qed.

Lemma isdigit_isalnum c : isdigit c = true → isalnum c = true.
Proof. unfold isalnum. intros ->. by rewrite !orb_true_r. Qed.

Lemma lstrip_suffix l : lstrip_chars l `suffix_of` l.
Proof.
  induction l as [|c l IH]; simpl; [done|].
  destruct (isspace c); [by apply suffix_cons_r|done].
Qed.

Lemma rstrip_prefix l : rstrip_chars l `prefix_of` l.
Proof.
  unfold rstrip_chars. apply prefix_suffix_reverse.
  rewrite reverse_involutive. apply lstrip_suffix.
Qed.

Lemma lstrip_filter (P : ascii → Prop) `{∀ c, Decision (P c)} l :
  (∀ c, P c → isspace c = false) →
  filter P (lstrip_chars l) = filter P l.
Proof.
  intros HP. induction l as [|c l IH]; simpl; [done|].
  destruct (isspace c) eqn:Hc; [|done].
  rewrite IH, filter_cons_False; [done|]. intros Hp. apply HP in Hp. congruence.
Qed.

Lemma rstrip_filter (P : ascii → Prop) `{∀ c, Decision (P c)} l :
  (∀ c, P c → isspace c = false) →
  filter P (rstrip_chars l) = filter P l.
Proof.
  intros HP. unfold rstrip_chars.
  rewrite filter_reverse, lstrip_filter, <- filter_reverse by done.
  by rewrite reverse_involutive.
Qed.

Lemma lstrip_head l c : head (lstrip_chars l) = Some c → isspace c = false.
Proof.
  induction l as [|x l IH]; simpl; [done|].
  destruct (isspace x) eqn:Hx; [done|]. simpl. congruence.
Qed.

End PyStrFacts.

(** ** The extension classifier *)

Lemma lookup_folder_cases items extension :
  (∃ folder exts, (folder, exts) ∈ items ∧ extension ∈ exts
                  ∧ lookup_folder items extension = folder)
  ∨ ((∀ folder exts, (folder, exts) ∈ items → extension ∉ exts)
     ∧ lookup_folder items extension = "others").
Proof.
  induction items as [|[folder exts] items IH]; simpl.
  - right. split; [|done]. intros ?? Hin. by apply elem_of_nil in Hin.
  - case_bool_decide as Hext.
    + left. exists folder, exts. split; [left|done].
    + destruct IH as [(f & e & Hin & He & Hf)|[Hno Ho]].
      * left. exists f, e. split; [by right|done].
      * right. split; [|done]. intros f e [?|?]%elem_of_cons; [by simplify_eq|eauto].
Qed.

Lemma get_download_folder_cases extension :
  (∃ folder exts, (folder, exts) ∈ FILE_TYPES ∧ extension ∈ exts
                  ∧ get_download_folder extension = folder)
  ∨ ((∀ folder exts, (folder, exts) ∈ FILE_TYPES → extension ∉ exts)
     ∧ get_download_folder extension = "others").
Proof. apply lookup_folder_cases. Qed.

Lemma get_download_folder_category extension :
  get_download_folder extension ∈ categories.
Proof.
  destruct (get_download_folder_cases extension)
    as [(folder & exts & Hin & _ & ->)|[_ ->]]; [|set_solver].
  unfold categories.
  repeat (apply elem_of_cons in Hin as [Hin|Hin]; [simplify_eq; set_solver|]).
  by apply elem_of_nil in Hin.
Qed.

(** No extension is listed twice in the table. *)
Lemma FILE_TYPES_disjoint : NoDup (mjoin (snd <$> FILE_TYPES)).
Proof. apply (bool_decide_unpack _). by vm_compute. Qed.

Lemma get_download_folder_listed folder exts extension :
  (folder, exts) ∈ FILE_TYPES → extension ∈ exts →
  get_download_folder extension = folder.
Proof.
  intros Hin Hext. unfold FILE_TYPES in Hin.
  repeat (apply elem_of_cons in Hin as [Hin|Hin];
          [simplify_eq;
           repeat (apply elem_of_cons in Hext as [->|Hext]; [reflexivity|]);
           by apply elem_of_nil in Hext|]).
  by apply elem_of_nil in Hin.
Qed.

(** C6.  The classifier is a function from strings to the seven
    categories: for every string it returns one of [pdf], [docs], [ppt],
    [xls], [zip], [images], [others]; an extension listed under a folder
    of the table is sent to that folder, so no extension belongs to two
    categories (and none is listed twice); a string that the table does
    not list is sent to [others]. *)
Theorem get_download_folder_total (extension : string) :
  get_download_folder extension ∈ categories
  ∧ (∀ folder exts, (folder, exts) ∈ FILE_TYPES → extension ∈ exts →
       get_download_folder extension = folder)
  ∧ (∀ f1 e1 f2 e2, (f1, e1) ∈ FILE_TYPES → (f2, e2) ∈ FILE_TYPES →
       extension ∈ e1 → extension ∈ e2 → f1 = f2)
  ∧ NoDup (mjoin (snd <$> FILE_TYPES))
  ∧ ((∀ folder exts, (folder, exts) ∈ FILE_TYPES → extension ∉ exts) →
       get_download_folder extension = "others").
Proof.
  split; [apply get_download_folder_category|].
  split; [intros ??; apply get_download_folder_listed|].
  split.
  { intros f1 e1 f2 e2 H1 H2 Hx1 Hx2.
    rewrite <- (get_download_folder_listed f1 e1 extension H1 Hx1).
    apply (get_download_folder_listed f2 e2 extension H2 Hx2). }
  split; [apply FILE_TYPES_disjoint|].
  intros Hno.
  destruct (get_download_folder_cases extension)
    as [(folder & exts & Hin & Hext & _)|[_ ->]]; [|done].
  by destruct (Hno folder exts Hin).
Qed.

(** ** The target-file test *)

Section TargetFileAnyAlphabet.
Context {char : Type} `{!EqDecision char}.
Context (lower : list char → list char).

Lemma ustr_endswith_true (s e : list char) :
  UStr.endswith s e = true ↔ e `suffix_of` s.
Proof. unfold UStr.endswith. apply bool_decide_eq_true. Qed.

(** An extension with a character that [lower] changes is the end of
    no lowered string. *)
Lemma ustr_endswith_changed (s ext : list char) (c : char) :
  (∀ s c, c ∈ lower s → lower [c] = [c]) →
  c ∈ ext → lower [c] ≠ [c] → UStr.endswith (lower s) ext = false.
Proof.
  intros Hstable Hc Hchanged. apply bool_decide_eq_false. intros [k Hk].
  apply Hchanged, (Hstable s). rewrite Hk. apply elem_of_app. by right.
Qed.

End TargetFileAnyAlphabet.

Section TargetFile.
Import PyStr PyStrFacts.
Context (py : library).

(** [is_target_file] of the scraper is the test over the code points
    U+0000..U+00FF. *)
Lemma is_target_file_latin1 (self : WebScraper) (url : string) :
  is_target_file py self url
  = UStr.is_target_file (λ s, lower_char <$> s)
      (λ u, chars (path (urlparse py (of_chars u))))
      (chars <$> target_extensions self) (chars url).
Proof.
  unfold is_target_file, UStr.is_target_file. rewrite of_chars_chars.
  induction (target_extensions self) as [|ext exts IH]; [done|].
  cbn [existsb fmap list_fmap]. rewrite IH. f_equal.
  unfold endswith, UStr.endswith, lower. by rewrite chars_of_chars.
Qed.

End TargetFile.


Lemma ustr_lower_stable (s : list UStr.code_point) (c : UStr.code_point) :
  c ∈ UStr.lower s → UStr.lower [c] = [c].
Proof.
  unfold UStr.lower. intros (c0 & -> & _)%list_elem_of_fmap.
  cbn [fmap list_fmap]. f_equal.
  destruct c0 as [a|]; [|done]. cbn [UStr.lower_char]. f_equal.
  PyStrFacts.all_chars a.
Qed.




(** [".PDF"] as a target extension matches neither spelling. *)
Example is_target_file_PDF :
  let self := {| base_url := "https://h"; domain := "h";
                 target_extensions := [".PDF"] |} in
  is_target_file (Urllib.lib []) self "https://h/x.PDF" = false
  ∧ is_target_file (Urllib.lib []) self "https://h/x.pdf" = false
  ∧ is_target_file (Urllib.lib [])
      {| base_url := "https://h"; domain := "h"; target_extensions := [".pdf"] |}
      "https://h/x.PDF" = true.
Proof. by vm_compute. Qed.

(** ** The filename clean-up *)

Section CleanFilename.
Import PyStr PyStrFacts.

Lemma keep_char_alnum c :
  keep_char c = true →
  isalnum c = true ∨ c ∈ [" "; "."; "_"; "-"]%char.
Proof.
  unfold keep_char. intros [[H|H]%orb_true_iff|H]%orb_true_iff.
  - left. by apply isalpha_isalnum.
  - left. by apply isdigit_isalnum.
  - right. by apply bool_decide_eq_true in H.
Qed.

Lemma keep_char_space c :
  keep_char c = true → c ≠ " "%char → isspace c = false.
Proof. all_chars c. Qed.

Lemma keep_char_sep c :
  keep_char c = true → c ≠ "/"%char ∧ c ≠ "\"%char.
Proof. all_chars c. Qed.

Lemma clean_filename_chars filename :
  chars (clean_filename filename)
  = rstrip_chars (lstrip_chars (filter (λ c, keep_char c = true) (chars filename))).
Proof.
  unfold clean_filename, strip, join_filter. by rewrite !chars_of_chars.
Qed.

Lemma clean_filename_sublist filename :
  chars (clean_filename filename)
  `sublist_of` filter (λ c, keep_char c = true) (chars filename).
Proof.
  rewrite clean_filename_chars.
  set (l := filter _ _).
  destruct (rstrip_prefix (lstrip_chars l)) as [k Hk].
  destruct (lstrip_suffix l) as [k' Hk'].
  rewrite Hk' at 2. rewrite Hk at 2.
  apply sublist_inserts_l, sublist_inserts_r. done.
Qed.

Lemma clean_filename_kept filename :
  Forall (λ c, keep_char c = true) (chars (clean_filename filename)).
Proof.
  apply Forall_forall. intros c Hc.
  apply (sublist_subseteq _ _ (clean_filename_sublist filename)) in Hc.
  by apply list_elem_of_filter in Hc as [? _].
Qed.

Lemma clean_filename_head filename c :
  head (chars (clean_filename filename)) = Some c → isspace c = false.
Proof.
  rewrite clean_filename_chars. set (l := lstrip_chars _).
  intros Hh. apply (lstrip_head (filter (λ c, keep_char c = true) (chars filename))).
  fold l. destruct (rstrip_prefix l) as [k Hk].
  destruct (rstrip_chars l) as [|x r]; [done|].
  rewrite Hk. simpl in *. done.
Qed.

Lemma clean_filename_last filename c :
  last (chars (clean_filename filename)) = Some c → isspace c = false.
Proof.
  rewrite clean_filename_chars. unfold rstrip_chars.
  rewrite last_reverse. apply lstrip_head.
Qed.

Lemma filter_ext_Forall {A} (P Q : A → Prop)
    `{!∀ x, Decision (P x), !∀ x, Decision (Q x)} (l : list A) :
  Forall (λ x, P x ↔ Q x) l → filter P l = filter Q l.
Proof.
  induction 1 as [|x l Hx _ IH]; [done|].
  destruct (decide (P x)) as [Hp|Hp].
  - rewrite !filter_cons_True by tauto. by rewrite IH.
  - rewrite !filter_cons_False by tauto. done.
Qed.

Lemma clean_filename_content filename :
  filter (λ c, c ≠ " "%char) (chars (clean_filename filename))
  = filter (λ c, keep_char c = true ∧ c ≠ " "%char) (chars filename).
Proof.
  transitivity (filter (λ c, keep_char c = true ∧ c ≠ " "%char)
                  (chars (clean_filename filename))).
  { apply filter_ext_Forall.
    eapply Forall_impl; [apply clean_filename_kept|]. intros c Hc. tauto. }
  rewrite clean_filename_chars.
  rewrite rstrip_filter, lstrip_filter
    by (intros c [??]; by apply keep_char_space).
  apply list_filter_filter_l. intros c [Hc _]. exact Hc.
Qed.

End CleanFilename.

Section SavePath.
Import PyStr PyStrFacts.
Context (py : library).

Lemma filename_of_cases file_url :
  filename_of py file_url = "downloaded_file"
  ∨ (∃ raw, filename_of py file_url = clean_filename raw).
Proof. unfold filename_of. case_bool_decide; eauto. Qed.

Lemma filename_of_nonempty file_url : filename_of py file_url ≠ "".
Proof. unfold filename_of. by case_bool_decide. Qed.

Lemma filename_of_kept file_url :
  Forall (λ c, keep_char c = true) (chars (filename_of py file_url)).
Proof.
  destruct (filename_of_cases file_url) as [->|[raw ->]].
  - apply (bool_decide_unpack _). by vm_compute.
  - apply clean_filename_kept.
Qed.

Lemma filename_of_no_sep file_url :
  "/"%char ∉ chars (filename_of py file_url).
Proof.
  intros Hin. pose proof (filename_of_kept file_url) as Hall.
  rewrite Forall_forall in Hall. by apply Hall in Hin.
Qed.

Lemma join_category folder name :
  folder ∈ categories → "/"%char ∉ chars name →
  OsPath.join base_download_path [folder; name]
  = "downloads/" +:+ folder +:+ "/" +:+ name.
Proof.
  intros Hf Hname. unfold OsPath.join. simpl.
  assert (startswith name "/" = false) as Hstart.
  { apply bool_decide_eq_false. intros [k Hk]. apply Hname.
    rewrite Hk. left. }
  unfold categories in Hf.
  repeat (apply elem_of_cons in Hf as [->|Hf];
          [unfold OsPath.join_step at 1; rewrite Hstart; reflexivity|]).
  by apply elem_of_nil in Hf.
Qed.

Lemma save_path_of_shape file_url :
  save_path_of py file_url
  = "downloads/" +:+ folder_of (filename_of py file_url) +:+ "/"
    +:+ filename_of py file_url.
Proof.
  unfold save_path_of. apply join_category.
  - apply get_download_folder_category.
  - apply filename_of_no_sep.
Qed.

End SavePath.



(** ** States and traces *)

Lemma log_nil st : log st [] = st.
Proof. destruct st. unfold log. simpl. by rewrite app_nil_r. Qed.

Lemma log_log st es es' : log (log st es) es' = log st (es ++ es').
Proof. unfold log. simpl. by rewrite app_assoc. Qed.

Lemma requests_sent_app t t' :
  requests_sent (t ++ t') = (requests_sent t + requests_sent t')%nat.
Proof. unfold requests_sent. by rewrite filter_app, length_app. Qed.

Lemma files_opened_app t t' :
  files_opened (t ++ t') = (files_opened t + files_opened t')%nat.
Proof. unfold files_opened. by rewrite filter_app, length_app. Qed.

Lemma visits_app t t' : visits (t ++ t') = visits t ++ visits t'.
Proof. unfold visits. apply omap_app. Qed.

(** ** Fetching a page *)

Section FetchPage.
Context (web : nat → string → reply).

(** One round of the retry loop, in closed form. *)
Lemma fetch_attempts_cons url retries i rest st :
  fetch_attempts web url retries (i :: rest) st =
  let get := Get url false 10 in
  let failed := [get; Print (ConnectionError (i + 1) retries); Sleep 2] in
  match web (requests_sent (trace st)) url with
  | NoReply => fetch_attempts web url retries rest (log st failed)
  | Reply r =>
      if intact r then
        if status_code r =? 200 then (Return (Some r), log st [get])
        else if status_code r =? 404 then
          (Return None, log st [get; Print (NotFound404 url)])
        else if status_code r =? 403 then
          (Return None, log st [get; Print (Forbidden403 url)])
        else fetch_attempts web url retries rest (log st [get])
      else fetch_attempts web url retries rest (log st failed)
  end.
Proof.
  cbn [fetch_attempts]. unfold bind at 1, try_except, requests_get.
  unfold bind at 1.
  destruct (web (requests_sent (trace st)) url) as [|r]; simpl.
  - unfold bind, print, sleep, emit, ret. simpl. by rewrite !log_log.
  - destruct (intact r); simpl.
    + unfold ret.
      destruct (status_code r =? 200); [done|].
      destruct (status_code r =? 404).
      { unfold bind, print, emit. simpl. by rewrite log_log. }
      destruct (status_code r =? 403).
      { unfold bind, print, emit. simpl. by rewrite log_log. }
      done.
    + unfold bind, print, sleep, emit, ret. simpl. by rewrite !log_log.
Qed.

(** The loop never raises, changes nothing but the trace, sends at
    most one GET per round and starts with one when there is a round,
    announces no visit, and returns only responses of status 200. *)
Lemma fetch_attempts_total url retries range st :
  ∃ v evs,
    fetch_attempts web url retries range st = (Return v, log st evs)
    ∧ (requests_sent evs ≤ length range)%nat
    ∧ (range ≠ [] → ∃ tl, evs = Get url false 10 :: tl)
    ∧ visits evs = []
    ∧ files_opened evs = 0%nat
    ∧ (∀ r, v = Some r → status_code r = 200).
Proof.
  revert st. induction range as [|i rest IH]; intros st.
  { exists None, []. simpl. unfold ret. rewrite log_nil. repeat split; done. }
  rewrite fetch_attempts_cons. cbv zeta.
  assert (∀ pre, requests_sent (Get url false 10 :: pre) = 1%nat →
                 visits pre = [] → files_opened pre = 0%nat →
    ∃ v evs,
      fetch_attempts web url retries rest (log st (Get url false 10 :: pre))
      = (Return v, log st evs)
      ∧ (requests_sent evs ≤ length (i :: rest))%nat
      ∧ (i :: rest ≠ [] → ∃ tl, evs = Get url false 10 :: tl)
      ∧ visits evs = [] ∧ files_opened evs = 0%nat
      ∧ (∀ r, v = Some r → status_code r = 200)) as Hrec.
  { intros pre Hpre Hvis Hop.
    destruct (IH (log st (Get url false 10 :: pre)))
      as (v & evs & -> & Hle & _ & Hv & Ho & Hst).
    exists v, ((Get url false 10 :: pre) ++ evs).
    rewrite log_log, requests_sent_app, visits_app, files_opened_app, Hpre, Hv, Ho.
    split; [done|]. split; [simpl; lia|]. split; [by eexists|].
    split; [simpl; by rewrite Hvis|]. split; [|done].
    change (files_opened (Get url false 10 :: pre)) with (files_opened pre).
    by rewrite Hop. }
  destruct (web (requests_sent (trace st)) url) as [|r]; [by apply Hrec|].
  destruct (intact r); [|by apply Hrec].
  destruct (status_code r =? 200) eqn:H200.
  { exists (Some r), [Get url false 10].
    split; [done|]. split; [vm_compute; lia|]. split; [by eexists|].
    split; [done|]. split; [done|]. intros ? [= <-]. lia. }
  destruct (status_code r =? 404).
  { eexists None, _.
    split; [done|]. split; [vm_compute; lia|]. split; [by eexists|]. done. }
  destruct (status_code r =? 403).
  { eexists None, _.
    split; [done|]. split; [vm_compute; lia|]. split; [by eexists|]. done. }
  by apply Hrec.
Qed.

Lemma fetch_page_total url st :
  ∃ v evs,
    fetch_page web url st
    = (Return v, log st (Print (Visiting url) :: Get url false 10 :: evs))
    ∧ (requests_sent evs ≤ 2)%nat
    ∧ visits evs = []
    ∧ files_opened evs = 0%nat
    ∧ (∀ r, v = Some r → status_code r = 200).
Proof.
  unfold fetch_page, bind at 1, print, emit.
  destruct (fetch_attempts_total url 3 (seqZ 0 3) (log st [Print (Visiting url)]))
    as (v & evs & -> & Hle & Hge & Hv & Ho & Hst).
  destruct Hge as [tl ->]; [done|].
  exists v, tl. rewrite log_log. simpl in *.
  split; [done|]. split; [|done].
  change (requests_sent (Get url false 10 :: tl)) with (S (requests_sent tl)) in Hle.
  lia.
Qed.

End FetchPage.

Section FetchPageClaims.
Context (web : nat → string → reply).

Lemma requests_sent_log st es :
  requests_sent (trace (log st es))
  = (requests_sent (trace st) + requests_sent es)%nat.
Proof. apply requests_sent_app. Qed.

Lemma fetch_page_first url st :
  fetch_page web url st
  = fetch_attempts web url 3 [0; 1; 2] (log st [Print (Visiting url)]).
Proof. reflexivity. Qed.

(** The first round of [fetch_page], with the request number of its
    GET made explicit. *)
Ltac first_round n :=
  rewrite fetch_page_first, fetch_attempts_cons; cbv zeta;
  rewrite requests_sent_log; change (requests_sent [_]) with 0%nat;
  rewrite Nat.add_0_r; fold n.

(** The retry loop follows [fetch_course], whatever the rounds meet. *)
Lemma fetch_attempts_course url retries range meets st :
  (∀ k, meets k = web (requests_sent (trace st) + k)%nat url) →
  fetch_attempts web url retries range st
  = (Return (fetch_course url retries meets range).1,
     log st (fetch_course url retries meets range).2).
Proof.
  revert meets st. induction range as [|i rest IH]; intros meets st Hmeets.
  { cbn. unfold ret. by rewrite log_nil. }
  assert (∀ pre, requests_sent pre = 1%nat →
            fetch_attempts web url retries rest (log st pre)
            = (Return (fetch_course url retries (λ k, meets (S k)) rest).1,
               log st (pre ++ (fetch_course url retries (λ k, meets (S k)) rest).2)))
    as Hlater.
  { intros pre Hpre. rewrite (IH (λ k, meets (S k)) (log st pre)).
    - by rewrite log_log.
    - intros k. rewrite Hmeets, requests_sent_log, Hpre. f_equal. lia. }
  rewrite fetch_attempts_cons. cbv zeta. cbn [fetch_course]. cbv zeta.
  rewrite <- (Nat.add_0_r (requests_sent (trace st))), <- Hmeets.
  destruct (meets 0%nat) as [|r]; [by apply Hlater|].
  destruct (intact r); cbn [negb]; [|by apply Hlater].
  destruct (status_code r =? 200); [done|].
  destruct (status_code r =? 404); [done|].
  destruct (status_code r =? 403); [done|].
  by rewrite (Hlater [Get url false 10]).
Qed.

Lemma unhandled_status (r : Response) :
  status_code r ∉ [200; 404; 403] →
  (status_code r =? 200) = false ∧ (status_code r =? 404) = false
  ∧ (status_code r =? 403) = false.
Proof.
  intros Hs. repeat split; apply Z.eqb_neq; intros E; apply Hs; rewrite E.
  - left.
  - right. left.
  - right. right. left.
Qed.

(** C3, amended.  [fetch_page] never raises and changes nothing but
    the trace; it sends at least one and at most three GETs; it
    returns a response only when its status is 200, and then at once;
    a 404 or a 403 ends the call at once with [None], after a line
    that names the status; an attempt that meets no response is
    followed by a pause of 2 and, if it was not the third, by another
    attempt; a response with any other status is followed by the next
    attempt at once, without a pause; when no attempt meets a
    response the call returns [None] after exactly three GETs (and
    three pauses), and when every attempt meets a status other than
    200, 404 and 403 it returns [None] after three GETs and no pause.
    All of this holds in every round and for every sequence of
    answers: result and trace of the call are those of [fetch_course]
    on what its first, second and third GET meet. *)
Theorem fetch_page_retries (url : string) (st : state) :
  let n := requests_sent (trace st) in
  let visiting := Print (Visiting url) in
  let get := Get url false 10 in
  let failed := λ i, [get; Print (ConnectionError i 3); Sleep 2] in
  (∃ v evs,
      fetch_page web url st = (Return v, log st (visiting :: get :: evs))
      ∧ (requests_sent evs ≤ 2)%nat
      ∧ (∀ r, v = Some r → status_code r = 200))
  ∧ (∀ r, web n url = Reply r → intact r = true → status_code r = 200 →
       fetch_page web url st = (Return (Some r), log st [visiting; get]))
  ∧ (∀ r, web n url = Reply r → intact r = true → status_code r = 404 →
       fetch_page web url st
       = (Return None, log st [visiting; get; Print (NotFound404 url)]))
  ∧ (∀ r, web n url = Reply r → intact r = true → status_code r = 403 →
       fetch_page web url st
       = (Return None, log st [visiting; get; Print (Forbidden403 url)]))
  ∧ (web n url = NoReply →
       ∃ v evs, fetch_page web url st
                = (Return v, log st (visiting :: failed 1 ++ get :: evs)))
  ∧ (∀ r, web n url = Reply r → intact r = true →
       status_code r ∉ [200; 404; 403] →
       ∃ v evs, fetch_page web url st
                = (Return v, log st (visiting :: get :: get :: evs)))
  ∧ ((∀ k, (k < 3)%nat → web (n + k)%nat url = NoReply) →
       fetch_page web url st
       = (Return None,
          log st (visiting :: failed 1 ++ failed 2 ++ failed 3)))
  ∧ ((∀ k, (k < 3)%nat →
        ∃ r, web (n + k)%nat url = Reply r ∧ intact r = true
             ∧ status_code r ∉ [200; 404; 403]) →
       fetch_page web url st = (Return None, log st [visiting; get; get; get]))
  ∧ (let course := fetch_course url 3 (λ k, web (n + k)%nat url) [0; 1; 2] in
     fetch_page web url st = (Return course.1, log st (visiting :: course.2))).
Proof.
  intros n visiting get failed.
  assert (let course := fetch_course url 3 (λ k, web (n + k)%nat url) [0; 1; 2] in
          fetch_page web url st = (Return course.1, log st (visiting :: course.2)))
    as Hcourse.
  { cbv zeta. rewrite fetch_page_first.
    rewrite (fetch_attempts_course url 3 [0; 1; 2] (λ k, web (n + k)%nat url)).
    - by rewrite log_log.
    - intros k. rewrite requests_sent_log. change (requests_sent [_]) with 0%nat.
      by rewrite Nat.add_0_r. }
  split.
  { destruct (fetch_page_total web url st) as (v & evs & Heq & Hn & _ & _ & Hst).
    by exists v, evs. }
  split.
  { intros r Hr Hi Hs. first_round n.
    rewrite Hr, Hi, Hs. simpl. by rewrite log_log. }
  split.
  { intros r Hr Hi Hs. first_round n.
    rewrite Hr, Hi, Hs. simpl. by rewrite log_log. }
  split.
  { intros r Hr Hi Hs. first_round n.
    rewrite Hr, Hi, Hs. simpl. by rewrite log_log. }
  split.
  { intros Hr. first_round n. rewrite Hr, log_log.
    destruct (fetch_attempts_total web url 3 [1; 2]
                (log st ([Print (Visiting url)]
                         ++ [Get url false 10; Print (ConnectionError (0 + 1) 3);
                             Sleep 2])))
      as (v & evs & -> & _ & [tl ->] & _); [done|].
    exists v, tl. by rewrite log_log. }
  split.
  { intros r Hr Hi Hs. first_round n. rewrite Hr, Hi.
    destruct (unhandled_status r Hs) as (-> & -> & ->).
    rewrite log_log.
    destruct (fetch_attempts_total web url 3 [1; 2]
                (log st ([Print (Visiting url)] ++ [Get url false 10])))
      as (v & evs & -> & _ & [tl ->] & _); [done|].
    exists v, tl. by rewrite log_log. }
  split.
  { intros Hdown. cbv zeta in Hcourse. rewrite Hcourse. cbn [fetch_course].
    cbv zeta. rewrite (Hdown 0%nat), (Hdown 1%nat), (Hdown 2%nat) by lia.
    reflexivity. }
  split; [|exact Hcourse].
  intros Hother. cbv zeta in Hcourse. rewrite Hcourse. cbn [fetch_course]. cbv zeta.
  destruct (Hother 0%nat) as (r0 & -> & -> & H0); [lia|].
  destruct (Hother 1%nat) as (r1 & -> & -> & H1); [lia|].
  destruct (Hother 2%nat) as (r2 & -> & -> & H2); [lia|].
  destruct (unhandled_status r0 H0) as (-> & -> & ->).
  destruct (unhandled_status r1 H1) as (-> & -> & ->).
  destruct (unhandled_status r2 H2) as (-> & -> & ->).
  reflexivity.
Qed.

End FetchPageClaims.

(** C3, as the specification has it, fails: a response whose status is
    neither 200, 404 nor 403 is retried as well, and at once.  Against a
    server that answers 401 (or 500) to every request, [fetch_page]
    sends three GETs in a row and returns [None]. *)
Lemma fetch_page_retries_on_status :
  let answering := λ code, λ (_ : nat) (_ : string),
    Reply {| status_code := code; content_type := None; body := []; intact := true |} in
  let url := "https://example.com/" in
  let three := [Print (Visiting url);
                Get url false 10; Get url false 10; Get url false 10] in
  fetch_page (answering 401) url Scenario.fresh = (Return None, log Scenario.fresh three)
  ∧ fetch_page (answering 500) url Scenario.fresh = (Return None, log Scenario.fresh three).
Proof. split; reflexivity. Qed.

(** The course of a call whose first attempt times out, whose second
    meets a 500 and whose third meets a 404. *)
Example fetch_page_mixed :
  let status := λ code,
    Reply {| status_code := code; content_type := None; body := []; intact := true |} in
  let web := λ (k : nat) (_ : string),
    match k with 0%nat => NoReply | 1%nat => status 500 | _ => status 404 end in
  let url := "https://example.com/" in
  fetch_page web url Scenario.fresh
  = (Return None,
     log Scenario.fresh
       [Print (Visiting url);
        Get url false 10; Print (ConnectionError 1 3); Sleep 2;
        Get url false 10;
        Get url false 10; Print (NotFound404 url)]).
Proof. reflexivity. Qed.

(** ** Downloading a file *)

Lemma set_files_log st fs es : set_files (log st es) fs = log (set_files st fs) es.
Proof. reflexivity. Qed.

Lemma set_files_set_files st fs fs' : set_files (set_files st fs) fs' = set_files st fs'.
Proof. reflexivity. Qed.

Lemma set_files_id st : set_files st (files st) = st.
Proof. by destruct st. Qed.

Lemma string_app_assoc (s t u : string) : (s +:+ t) +:+ u = s +:+ t +:+ u.
Proof.
  apply PyStrFacts.chars_inj. rewrite !PyStrFacts.chars_app. by rewrite app_assoc.
Qed.

(** The loop [for chunk in ...: f.write(chunk)] appends the chunks to
    the file. *)
Lemma for_each_write p chunks st c :
  files st !! p = Some c →
  for_each chunks (write p) st
  = (Return tt,
     log (set_files st (<[p := c +:+ foldr String.app "" chunks]> (files st)))
         (WriteChunk p <$> chunks)).
Proof.
  revert st c. induction chunks as [|x chunks IH]; intros st c Hc.
  - simpl. unfold ret. rewrite PyStrFacts.app_empty_r, insert_id by done.
    by rewrite set_files_id, log_nil.
  - cbn [for_each]. unfold bind at 1, write at 1. rewrite Hc. simpl default.
    rewrite (IH _ (c +:+ x)) by apply lookup_insert_eq.
    cbn [files log set_files]. rewrite insert_insert_eq.
    rewrite set_files_log, set_files_set_files, log_log, string_app_assoc.
    done.
Qed.

Section DownloadFile.
Context (py : library) (web : nat → string → reply).

(** [download_file] in closed form: it always returns normally, and
    the final state is one of six. *)
Lemma download_file_eq file_url st :
  download_file py web file_url st =
  let filename := filename_of py file_url in
  let p := save_path_of py file_url in
  let found := [Print (FoundFile filename); Get file_url true 20] in
  let failed := λ e, Print (FailedToDownload file_url e) in
  if path_exists st p then
    (Return tt, log st [Print (SkippingDuplicate filename)])
  else
    match web (requests_sent (trace st)) file_url with
    | NoReply => (Return tt, log st (found ++ [failed RequestException]))
    | Reply r =>
        if (400 <=? status_code r) && (status_code r <? 600) then
          (Return tt, log st (found ++ [failed (HTTPError (status_code r))]))
        else if can_open st p then
          (Return tt,
           log (set_files st (<[p := text r]> (files st)))
               (found ++ OpenWrite p :: (WriteChunk p <$> body r)
                      ++ [if intact r then Print (Downloaded p)
                          else failed RequestException]))
        else (Return tt, log st (found ++ [failed (OSError p)]))
    end.
Proof.
  cbv zeta. unfold download_file, try_except, download_file_body.
  unfold bind at 1, os_path_exists.
  destruct (path_exists st (save_path_of py file_url)) eqn:Hex.
  { reflexivity. }
  unfold bind at 1, print at 1, emit at 1.
  unfold bind at 1, requests_get.
  change (requests_sent (trace (log st [Print (FoundFile (filename_of py file_url))])))
    with (requests_sent (trace st ++ [Print (FoundFile (filename_of py file_url))])).
  rewrite requests_sent_app. change (requests_sent [_]) with 0%nat.
  rewrite Nat.add_0_r.
  destruct (web (requests_sent (trace st)) file_url) as [|r].
  { unfold print, emit. by rewrite !log_log. }
  cbn [orb]. unfold bind at 1, raise_for_status.
  destruct ((400 <=? status_code r) && (status_code r <? 600)).
  { unfold raise, print, emit. by rewrite !log_log. }
  unfold ret at 1. unfold bind at 1, open_wb.
  change (can_open (log (log st _) _) ?p) with (can_open st p).
  destruct (can_open st (save_path_of py file_url)).
  2:{ unfold print, emit. by rewrite !log_log. }
  unfold bind at 1.
  erewrite for_each_write by apply lookup_insert_eq.
  cbn [files log set_files]. rewrite insert_insert_eq.
  unfold bind at 1. destruct (intact r).
  - unfold ret at 1. unfold print, emit.
    rewrite !set_files_log, !set_files_set_files, !log_log. simpl. done.
  - unfold raise, print, emit.
    rewrite !set_files_log, !set_files_set_files, !log_log. simpl. done.
Qed.

End DownloadFile.

Section DownloadFileClaims.
Context (py : library) (web : nat → string → reply).

Lemma files_opened_chunks p chunks :
  files_opened (WriteChunk p <$> chunks) = 0%nat.
Proof. induction chunks as [|x chunks IH]; [done|]. exact IH. Qed.

Lemma path_exists_insert st p c fs :
  files st = <[p := c]> fs → path_exists st p = true.
Proof.
  intros Hf. unfold path_exists. rewrite Hf, lookup_insert_eq.
  rewrite (bool_decide_eq_true_2 (is_Some (Some c))) by eauto.
  apply orb_true_r.
Qed.

Lemma last_app_cons_snoc {A} (l : list A) y k x :
  last (l ++ y :: k ++ [x]) = Some x.
Proof.
  change (y :: k ++ [x]) with ((y :: k) ++ [x]).
  rewrite app_assoc. apply last_snoc.
Qed.

Lemma files_opened_log st es :
  files_opened (trace (log st es))
  = (files_opened (trace st) + files_opened es)%nat.
Proof. apply files_opened_app. Qed.

Ltac no_opens :=
  match goal with
  | |- context [(_ + files_opened ?es)%nat] =>
      let v := eval vm_compute in (files_opened es) in
      change (files_opened es) with v; lia
  end.

(** What one call does to the storage: nothing, or one file opened at
    the destination, which did not exist, and filled with the chunks
    received. *)
Lemma download_file_storage file_url st :
  let p := save_path_of py file_url in
  let st' := (download_file py web file_url st).2 in
  (files st' = files st
   ∧ files_opened (trace st') = files_opened (trace st))
  ∨ (path_exists st p = false ∧ can_open st p = true
     ∧ files_opened (trace st') = S (files_opened (trace st))
     ∧ ∃ r, web (requests_sent (trace st)) file_url = Reply r
            ∧ (400 <=? status_code r) && (status_code r <? 600) = false
            ∧ files st' = <[p := text r]> (files st)).
Proof.
  cbv zeta. rewrite download_file_eq. cbv zeta.
  destruct (path_exists st _) eqn:Hex.
  { left. cbn [snd]. rewrite files_opened_log. split; [done|]. no_opens. }
  destruct (web _ file_url) as [|r] eqn:Hweb.
  { left. cbn [snd]. rewrite files_opened_log. split; [done|]. no_opens. }
  destruct (_ && _) eqn:Hstatus.
  { left. cbn [snd]. rewrite files_opened_log. split; [done|]. no_opens. }
  destruct (can_open st _) eqn:Hopen.
  2:{ left. cbn [snd]. rewrite files_opened_log. split; [done|]. no_opens. }
  right. split; [done|]. split; [done|]. cbn [snd]. split.
  - rewrite files_opened_log. cbn [trace set_files].
    rewrite files_opened_app.
    change (files_opened [_; _]) with 0%nat.
    change (files_opened (OpenWrite ?p :: ?l)) with (S (files_opened l)).
    rewrite files_opened_app, files_opened_chunks.
    destruct (intact r); change (files_opened [_]) with 0%nat; lia.
  - by exists r.
Qed.

Lemma download_file_skip file_url st :
  path_exists st (save_path_of py file_url) = true →
  download_file py web file_url st
  = (Return tt, log st [Print (SkippingDuplicate (filename_of py file_url))]).
Proof. intros Hex. rewrite download_file_eq. cbv zeta. by rewrite Hex. Qed.

(** When a call writes: exactly when nothing is at the destination,
    the destination can be opened, and the request meets a response
    whose status is outside 400..599. *)
Lemma download_file_writes file_url st :
  let p := save_path_of py file_url in
  let st1 := (download_file py web file_url st).2 in
  files_opened (trace st1) = S (files_opened (trace st))
  ↔ path_exists st p = false ∧ can_open st p = true
    ∧ ∃ r, web (requests_sent (trace st)) file_url = Reply r ∧ http_ok r = true.
Proof.
  cbv zeta. split.
  - intros Hone.
    destruct (download_file_storage file_url st)
      as [[_ Hsame]|(Hex & Hopen & _ & r & Hr & Hok & _)]; [lia|].
    split; [done|]. split; [done|]. exists r. split; [done|].
    unfold http_ok. by rewrite Hok.
  - intros (Hex & Hopen & r & Hr & Hok).
    destruct (download_file_storage file_url st)
      as [[Hsame _]|(_ & _ & Hone & _)]; [|done].
    exfalso. revert Hsame. rewrite download_file_eq. cbv zeta.
    rewrite Hex, Hr, Hopen. unfold http_ok in Hok.
    apply negb_true_iff in Hok. rewrite Hok. cbn [snd files set_files log].
    intros Hsame.
    pose proof (lookup_insert_eq (files st) (save_path_of py file_url) (text r)) as Hin.
    rewrite Hsame in Hin.
    unfold path_exists in Hex. apply orb_false_iff in Hex as [_ Hex].
    apply bool_decide_eq_false in Hex. apply Hex. by rewrite Hin.
Qed.

(** C7.  A call that finds something at the destination path does
    nothing but print the line about the duplicate: no request, no
    file opened, the storage as before, a normal return.  A first call
    writes exactly when nothing is at the destination, the destination
    can be opened (its directory exists) and the request meets a
    response whose status is outside 400..599; then the file holds
    what the response carried, a second call for the same URL finds it
    and is such a skip, so the two calls together open exactly one
    file, and the stored content is that of the first.  In any case two
    calls open at most one file. *)
Theorem download_file_twice (file_url : string) (st : state) :
  let p := save_path_of py file_url in
  let skip := [Print (SkippingDuplicate (filename_of py file_url))] in
  let st1 := (download_file py web file_url st).2 in
  let st2 := (download_file py web file_url st1).2 in
  (path_exists st p = true →
     download_file py web file_url st = (Return tt, log st skip))
  ∧ (files_opened (trace st1) = S (files_opened (trace st)) →
     path_exists st1 p = true
     ∧ download_file py web file_url st1 = (Return tt, log st1 skip)
     ∧ files st2 = files st1
     ∧ requests_sent (trace st2) = requests_sent (trace st1)
     ∧ files_opened (trace st2) = S (files_opened (trace st)))
  ∧ (files_opened (trace st2) ≤ S (files_opened (trace st)))%nat
  ∧ (files_opened (trace st1) = S (files_opened (trace st))
     ↔ path_exists st p = false ∧ can_open st p = true
       ∧ ∃ r, web (requests_sent (trace st)) file_url = Reply r ∧ http_ok r = true)
  ∧ (∀ r, path_exists st p = false → can_open st p = true →
       web (requests_sent (trace st)) file_url = Reply r → http_ok r = true →
       files_opened (trace st1) = S (files_opened (trace st))
       ∧ files st1 !! p = Some (text r)
       ∧ download_file py web file_url st1 = (Return tt, log st1 skip)
       ∧ files st2 = files st1
       ∧ files st2 !! p = Some (text r)
       ∧ requests_sent (trace st2) = S (requests_sent (trace st))
       ∧ files_opened (trace st2) = S (files_opened (trace st))).
Proof.
  intros p skip st1 st2.
  assert (files_opened (trace st1) = S (files_opened (trace st)) →
          path_exists st1 p = true) as Hwritten.
  { intros Hone.
    destruct (download_file_storage file_url st)
      as [[_ Hsame]|(_ & _ & _ & r & _ & _ & Hf)].
    - fold st1 in Hsame. lia.
    - eapply path_exists_insert. exact Hf. }
  assert (files_opened (trace st1) = S (files_opened (trace st)) →
          path_exists st1 p = true
          ∧ download_file py web file_url st1 = (Return tt, log st1 skip)
          ∧ files st2 = files st1
          ∧ requests_sent (trace st2) = requests_sent (trace st1)
          ∧ files_opened (trace st2) = S (files_opened (trace st))) as Hsecond.
  { intros Hone. pose proof (Hwritten Hone) as Hex.
    split; [done|].
    pose proof (download_file_skip file_url st1 Hex) as Hskip.
    split; [done|]. unfold st2. rewrite Hskip. cbn [snd].
    split; [done|]. split.
    + rewrite requests_sent_log. unfold skip.
      change (requests_sent [_]) with 0%nat. lia.
    + rewrite files_opened_log, Hone. no_opens. }
  split; [apply download_file_skip|].
  split; [exact Hsecond|].
  split.
  { destruct (download_file_storage file_url st)
      as [[_ Hsame]|(_ & _ & Hone & _)].
    + fold st1 in Hsame.
      destruct (download_file_storage file_url st1)
        as [[_ H2]|(_ & _ & H2 & _)];
        fold st2 in H2; lia.
    + fold st1 in Hone. pose proof (Hwritten Hone) as Hex.
      unfold st2. rewrite (download_file_skip file_url st1 Hex). cbn [snd].
      rewrite files_opened_log, Hone. no_opens. }
  split; [apply download_file_writes|].
  intros r Hex Hopen Hr Hok.
  assert (files_opened (trace st1) = S (files_opened (trace st))) as Hone.
  { apply download_file_writes. split; [done|]. split; [done|]. by exists r. }
  destruct (Hsecond Hone) as (_ & Hskip & Hfiles & Hreq & Hopened).
  assert (files st1 !! p = Some (text r) ∧
          requests_sent (trace st1) = S (requests_sent (trace st))) as [Hstored Hsent].
  { unfold st1. rewrite download_file_eq. cbv zeta. fold p.
    rewrite Hex, Hr, Hopen. unfold http_ok in Hok.
    apply negb_true_iff in Hok. rewrite Hok. cbn [snd files set_files log trace].
    split; [apply lookup_insert_eq|].
    rewrite requests_sent_app, requests_sent_app.
    change (requests_sent [_; _]) with 1%nat.
    change (requests_sent (OpenWrite ?q :: ?l)) with (requests_sent l).
    rewrite requests_sent_app.
    assert (requests_sent (WriteChunk p <$> body r) = 0%nat) as ->.
    { induction (body r) as [|x chunks IH]; [done|]. exact IH. }
    destruct (intact r); change (requests_sent [_]) with 0%nat; lia. }
  split; [done|]. split; [done|]. split; [done|]. split; [done|].
  split; [by rewrite Hfiles|]. split; [by rewrite Hreq|done].
Qed.

(** C8, amended.  [download_file] returns normally whatever happens,
    and touches neither the queue, the visited set nor the
    directories.  When the request meets no response, when the status
    is 400..599, or when the destination cannot be opened, the
    storage is as before.  Otherwise the file is written in place,
    chunk by chunk: if the connection breaks during the body, the
    chunks received so far are what the destination path holds, and
    the failure is printed.  No other path changes. *)
Theorem download_file_contained (file_url : string) (st : state) :
  let p := save_path_of py file_url in
  let n := requests_sent (trace st) in
  let result := download_file py web file_url st in
  result.1 = Return tt
  ∧ queue result.2 = queue st
  ∧ visited_urls result.2 = visited_urls st
  ∧ dirs result.2 = dirs st
  ∧ (∀ q, q ≠ p → files result.2 !! q = files st !! q)
  ∧ (web n file_url = NoReply → files result.2 = files st)
  ∧ (∀ r, web n file_url = Reply r →
       (400 <=? status_code r) && (status_code r <? 600) = true →
       files result.2 = files st)
  ∧ (can_open st p = false → files result.2 = files st)
  ∧ (∀ r, path_exists st p = false → can_open st p = true →
       web n file_url = Reply r →
       (400 <=? status_code r) && (status_code r <? 600) = false →
       files result.2 !! p = Some (text r)
       ∧ last (trace result.2)
         = Some (if intact r then Print (Downloaded p)
                 else Print (FailedToDownload file_url RequestException))).
Proof.
  intros p n result. unfold result. rewrite download_file_eq. cbv zeta.
  fold p n.
  destruct (path_exists st p) eqn:Hex.
  { cbn [fst snd]. repeat split; try done; intros; simplify_eq; congruence. }
  destruct (web n file_url) as [|r] eqn:Hweb.
  { cbn [fst snd]. repeat split; try done; intros; simplify_eq; congruence. }
  destruct (_ && _) eqn:Hstatus.
  { cbn [fst snd]. repeat split; try done; intros; simplify_eq; congruence. }
  destruct (can_open st p) eqn:Hopen.
  2:{ cbn [fst snd]. repeat split; try done; intros; simplify_eq; congruence. }
  cbn [fst snd]. split; [done|]. split; [done|]. split; [done|]. split; [done|].
  split. { intros q Hq. cbn. by rewrite lookup_insert_ne. }
  split; [done|]. split. { intros ? [= <-]. congruence. }
  split; [done|]. intros ? _ _ [= <-] _. split.
  - cbn. apply lookup_insert_eq.
  - cbn [trace log set_files]. rewrite app_assoc. apply last_app_cons_snoc.
Qed.

End DownloadFileClaims.

(** C7 on the scenario: the PDF is fetched once, the second call prints
    the line about the duplicate. *)
Example download_file_twice_scenario :
  let url := "https://example.com/doc.pdf" in
  let st1 := (download_file Scenario.py Scenario.web url Scenario.started).2 in
  let st2 := (download_file Scenario.py Scenario.web url st1).2 in
  trace st1
  = [Print (FoundFile "doc.pdf"); Get url true 20;
     OpenWrite "downloads/pdf/doc.pdf";
     WriteChunk "downloads/pdf/doc.pdf" "%PDF-1.4 ";
     WriteChunk "downloads/pdf/doc.pdf" "%%EOF";
     Print (Downloaded "downloads/pdf/doc.pdf")]
  ∧ trace st2 = trace st1 ++ [Print (SkippingDuplicate "doc.pdf")]
  ∧ files st2 !! "downloads/pdf/doc.pdf" = Some "%PDF-1.4 %%EOF".
Proof. by vm_compute. Qed.

(** C8, as the specification has it, fails: the file is written in
    place.  When the body breaks off after its first chunk, that chunk
    is what the destination path holds after the failed call. *)
Lemma download_file_leaves_partial_file :
  let url := "https://example.com/doc.pdf" in
  let result := download_file Scenario.py Scenario.breaking url Scenario.started in
  result.1 = Return tt
  ∧ Scenario.started.(files) !! "downloads/pdf/doc.pdf" = None
  ∧ result.2.(files) !! "downloads/pdf/doc.pdf" = Some "%PDF-1.4 "
  ∧ last (trace result.2) = Some (Print (FailedToDownload url RequestException)).
Proof. by vm_compute. Qed.


(** ** Extraction *)

(** The state after a computation that wrote files and events only. *)
Lemma touch_touch st fs es fs' es' :
  log (set_files (log (set_files st fs) es) fs') es'
  = log (set_files st fs') (es ++ es').
Proof. by rewrite set_files_log, set_files_set_files, log_log. Qed.

Lemma touch_id st : log (set_files st (files st)) [] = st.
Proof. by rewrite set_files_id, log_nil. Qed.

Lemma visits_chunks p chunks : visits (WriteChunk p <$> chunks) = [].
Proof. induction chunks as [|x chunks IH]; [done|]. exact IH. Qed.

Section Extraction.
Context (py : library) (web : nat → string → reply).

(** [download_file] returns, writes files and events only, and
    announces no visit. *)
Lemma download_file_touch file_url st :
  ∃ fs es,
    download_file py web file_url st = (Return tt, log (set_files st fs) es)
    ∧ visits es = [].
Proof.
  rewrite download_file_eq. cbv zeta.
  destruct (path_exists st _).
  { eexists (files st), _. by rewrite set_files_id. }
  destruct (web _ file_url) as [|r].
  { eexists (files st), _. by rewrite set_files_id. }
  destruct (_ && _).
  { eexists (files st), _. by rewrite set_files_id. }
  destruct (can_open st _).
  2:{ eexists (files st), _. by rewrite set_files_id. }
  eexists _, _. split; [done|].
  rewrite visits_app. change (visits [_; _]) with (@nil string).
  change (visits (OpenWrite ?p :: ?l)) with (visits l).
  rewrite visits_app, visits_chunks. by destruct (intact r).
Qed.

Lemma scan_hrefs_spec self current_url tags new_links st :
  ∃ links fs es,
    scan_hrefs py web self current_url tags new_links st
    = (Return (new_links ++ links), log (set_files st fs) es)
    ∧ visits es = []
    ∧ Forall (crawlable py self st) links
    ∧ Forall (λ url, ∃ tag, tag ∈ tags
                ∧ url = resolve_href py current_url (getattr tag "href")) links.
Proof.
  revert new_links st. induction tags as [|tag rest IH]; intros new_links st.
  { exists [], (files st), []. rewrite app_nil_r, touch_id. by repeat split. }
  cbn [scan_hrefs]. set (full_url := resolve_href py current_url _).
  assert (∀ links, Forall (λ url, ∃ t, t ∈ rest
            ∧ url = resolve_href py current_url (getattr t "href")) links →
          Forall (λ url, ∃ t, t ∈ tag :: rest
            ∧ url = resolve_href py current_url (getattr t "href")) links) as Hweaken.
  { intros links Hl. eapply Forall_impl; [exact Hl|]. intros url (t & Ht & ->).
    exists t. split; [by right|done]. }
  case_bool_decide as Hempty.
  { destruct (IH new_links st) as (links & fs & es & -> & Hv & Hl & Ht).
    exists links, fs, es. repeat split; auto. }
  destruct (is_target_file py self full_url) eqn:Htarget.
  { unfold bind at 1.
    destruct (download_file_touch full_url st) as (fs & es & -> & Hv).
    destruct (IH new_links (log (set_files st fs) es))
      as (links & fs' & es' & -> & Hv' & Hl & Ht).
    exists links, fs', (es ++ es'). rewrite touch_touch, visits_app, Hv, Hv'.
    repeat split; auto. }
  unfold bind at 1, get_visited.
  destruct (is_internal_link py self full_url) eqn:Hinternal; cbn [andb].
  2:{ destruct (IH new_links st) as (links & fs & es & -> & Hv & Hl & Ht).
      exists links, fs, es. repeat split; auto. }
  case_bool_decide as Hvisited; cbn [negb].
  { destruct (IH new_links st) as (links & fs & es & -> & Hv & Hl & Ht).
    exists links, fs, es. repeat split; auto. }
  destruct (IH (new_links ++ [full_url]) st) as (links & fs & es & -> & Hv & Hl & Ht).
  exists (full_url :: links), fs, es. rewrite <- app_assoc.
  split; [done|]. split; [done|]. split.
  - constructor; [by repeat split|done].
  - constructor; [|auto]. exists tag. split; [left|done].
Qed.

(** The second loop downloads and returns nothing. *)
Lemma scan_imgs_spec self current_url imgs st :
  ∃ fs es,
    for_each imgs (scan_img py web self current_url) st
    = (Return tt, log (set_files st fs) es)
    ∧ visits es = [].
Proof.
  revert st. induction imgs as [|img rest IH]; intros st.
  { exists (files st), []. by rewrite touch_id. }
  cbn [for_each]. unfold bind at 1, scan_img at 1.
  destruct (is_target_file py self _).
  - destruct (download_file_touch (urljoin py current_url (getattr img "src")) st)
      as (fs & es & -> & Hv).
    destruct (IH (log (set_files st fs) es)) as (fs' & es' & -> & Hv').
    exists fs', (es ++ es'). by rewrite touch_touch, visits_app, Hv, Hv'.
  - unfold ret at 1. apply IH.
Qed.

Lemma extract_from_soup_spec self soup current_url st :
  ∃ links fs es,
    extract_from_soup py web self soup current_url st
    = (Return links, log (set_files st fs) es)
    ∧ visits es = []
    ∧ Forall (crawlable py self st) links
    ∧ Forall (λ url, ∃ tag, tag ∈ find_all soup ["a"; "link"] "href"
                ∧ url = resolve_href py current_url (getattr tag "href")) links.
Proof.
  unfold extract_from_soup, bind at 1.
  destruct (scan_hrefs_spec self current_url (find_all soup ["a"; "link"] "href") [] st)
    as (links & fs & es & -> & Hv & Hl & Ht).
  cbn [app]. unfold bind at 1.
  destruct (existsb _ _).
  - destruct (scan_imgs_spec self current_url (find_all soup ["img"] "src")
                (log (set_files st fs) es)) as (fs' & es' & -> & Hv').
    exists links, fs', (es ++ es'). unfold ret.
    by rewrite touch_touch, visits_app, Hv, Hv'.
  - by exists links, fs, es.
Qed.

(** C5.  [extract_links_and_files] returns normally, and every URL in
    the list it returns has the host of the scraper's domain, which
    [__init__] computes once from the seed URL.  A link whose host
    differs is therefore never among the crawl links.  (The returned
    URLs are, more precisely, the resolved references of anchor and
    link tags that are non-empty, not target files, internal and not
    yet visited.) *)
Theorem extract_internal_only (self : WebScraper) (html_content current_url : string)
    (st : state) :
  (∃ links st',
      extract_links_and_files py web self html_content current_url st
      = (Return links, st')
      ∧ Forall (λ url, netloc (urlparse py url) = domain self) links
      ∧ Forall (crawlable py self st) links)
  ∧ (∀ url, netloc (urlparse py url) ≠ domain self →
       url ∉ match (extract_links_and_files py web self html_content current_url st).1 with
             | Return links => links
             | Raise _ => []
             end)
  ∧ (∀ seed exts st0, ∃ st1,
       init py seed exts st0
       = (Return {| base_url := seed; domain := netloc (urlparse py seed);
                    target_extensions := exts |}, st1)).
Proof.
  unfold extract_links_and_files.
  destruct (extract_from_soup_spec self (BeautifulSoup py html_content) current_url st)
    as (links & fs & es & Heq & _ & Hl & _).
  assert (Forall (λ url, netloc (urlparse py url) = domain self) links) as Hdom.
  { eapply Forall_impl; [exact Hl|]. intros url (_ & _ & Hint & _).
    by apply bool_decide_eq_true in Hint. }
  split; [by eexists _, _|]. split.
  - intros url Hne. rewrite Heq. cbn [fst]. intros Hin.
    rewrite Forall_forall in Hdom. by apply Hdom in Hin.
  - intros seed exts st0. unfold init, bind at 1. unfold bind at 1.
    unfold create_directories, bind at 1, os_path_exists.
    set (mk := λ folder : string, _).
    assert (∀ folders st, ∃ st', for_each folders mk st = (Return tt, st')) as Hfor.
    { induction folders as [|f folders IH]; intros s; [by eexists|].
      cbn [for_each]. unfold bind at 1, mk at 1, bind, os_path_exists.
      destruct (path_exists s _); [apply IH|].
      unfold os_makedirs. apply IH. }
    unfold bind at 1.
    destruct (path_exists _ base_download_path).
    + unfold ret at 1. edestruct Hfor as [st1 ->]. by eexists.
    + unfold os_makedirs at 1. edestruct Hfor as [st1 ->]. by eexists.
Qed.

End Extraction.

(** ** Fragments *)

Section Fragments.
Import PyStr PyStrFacts.
Context (py : library) (web : nat → string → reply).

Lemma before_first_app sep l f :
  sep ∉ l → before_first sep (l ++ sep :: f) = l.
Proof.
  induction l as [|c l IH]; intros Hl; simpl.
  - by rewrite decide_True.
  - apply not_elem_of_cons in Hl as [Hc Hl].
    rewrite decide_False by done. by rewrite IH.
Qed.

Lemma before_first_free sep l : sep ∉ before_first sep l.
Proof.
  induction l as [|c l IH]; simpl; [apply not_elem_of_nil|].
  case_decide; [apply not_elem_of_nil|]. apply not_elem_of_cons. by split.
Qed.

Lemma split_first_fragment u f :
  "#"%char ∉ chars u → split_first (u +:+ "#" +:+ f) "#" = u.
Proof.
  intros Hu. unfold split_first. rewrite chars_app.
  change (chars ("#" +:+ f)) with ("#"%char :: chars f).
  rewrite before_first_app by done. apply of_chars_chars.
Qed.

Lemma before_first_absent sep l : sep ∉ l → before_first sep l = l.
Proof.
  induction l as [|c l IH]; intros Hl; [done|].
  apply not_elem_of_cons in Hl as [Hc Hl]. cbn [before_first].
  rewrite decide_False by done. by rewrite IH.
Qed.

Lemma before_first_split sep l :
  l = before_first sep l ∨ ∃ f, l = before_first sep l ++ sep :: f.
Proof.
  induction l as [|c l IH]; [by left|]. cbn [before_first].
  destruct (decide (c = sep)) as [->|Hc].
  - right. by exists l.
  - destruct IH as [IH|[f IH]].
    + left. by rewrite <- IH.
    + right. exists f. cbn [app]. by rewrite <- IH.
Qed.

Lemma split_first_absent s : "#"%char ∉ chars s → split_first s "#" = s.
Proof.
  intros Hs. unfold split_first. rewrite before_first_absent by done.
  apply of_chars_chars.
Qed.

Lemma split_first_with_fragment v full :
  "#"%char ∉ chars v → with_fragment v full → split_first full "#" = v.
Proof.
  intros Hv [->|[f ->]]; [by apply split_first_absent|by apply split_first_fragment].
Qed.


End Fragments.


(** ** The scenario *)

Section ScenarioClaims.
Context (web : nat → string → reply).

(** A download whose destination does not exist yet: the file is
    announced and requested, and nothing else is requested. *)
Lemma download_file_fresh py file_url st :
  path_exists st (save_path_of py file_url) = false →
  ∃ fs es,
    download_file py web file_url st
    = (Return tt,
       log (set_files st fs)
           (Print (FoundFile (filename_of py file_url))
            :: Get file_url true 20 :: es))
    ∧ requests_sent es = 0%nat
    ∧ (∀ q, q ≠ save_path_of py file_url → fs !! q = files st !! q)
    ∧ (∀ r, web (requests_sent (trace st)) file_url = Reply r →
         http_ok r = true → can_open st (save_path_of py file_url) = true →
         fs !! save_path_of py file_url = Some (text r)).
Proof.
  intros Hex. rewrite download_file_eq. cbv zeta. rewrite Hex.
  destruct (web _ file_url) as [|r].
  { exists (files st), [Print (FailedToDownload file_url RequestException)].
    rewrite set_files_id. repeat split; try done. }
  unfold http_ok. destruct (_ && _) eqn:Hstatus.
  { eexists (files st), [_]. rewrite set_files_id.
    repeat split; try done. intros ? [= <-] Hok. by rewrite Hstatus in Hok. }
  destruct (can_open st _).
  2:{ eexists (files st), [_]. rewrite set_files_id. repeat split; try done. }
  eexists _, _. split; [done|]. split.
  { change (requests_sent (OpenWrite ?p :: ?l)) with (requests_sent l).
    rewrite requests_sent_app.
    assert (∀ p l, requests_sent (WriteChunk p <$> l) = 0%nat) as ->.
    { intros p l. induction l as [|x l IH]; [done|exact IH]. }
    by destruct (intact r). }
  split.
  { intros q Hq. by rewrite lookup_insert_ne. }
  intros ? [= <-] _ _. apply lookup_insert_eq.
Qed.

Lemma path_exists_touch st fs es p :
  path_exists (log (set_files st fs) es) p
  = bool_decide (p ∈ dirs st) || bool_decide (is_Some (fs !! p)).
Proof. reflexivity. Qed.

(** The two ways in which the first loop of the extractor uses a tag. *)
Lemma scan_hrefs_link py self current_url tag rest new_links st u :
  resolve_href py current_url (getattr tag "href") = u →
  u ≠ "" → is_target_file py self u = false →
  is_internal_link py self u = true → u ∉ visited_urls st →
  scan_hrefs py web self current_url (tag :: rest) new_links st
  = scan_hrefs py web self current_url rest (new_links ++ [u]) st.
Proof.
  intros Hu Hne Ht Hi Hv. cbn [scan_hrefs]. rewrite Hu.
  rewrite bool_decide_eq_false_2, Ht by done.
  unfold bind, get_visited. rewrite Hi. by rewrite bool_decide_eq_false_2.
Qed.

Lemma scan_hrefs_file py self current_url tag rest new_links st u :
  resolve_href py current_url (getattr tag "href") = u →
  u ≠ "" → is_target_file py self u = true →
  scan_hrefs py web self current_url (tag :: rest) new_links st
  = (download_file py web u >> scan_hrefs py web self current_url rest new_links) st.
Proof.
  intros Hu Hne Ht. cbn [scan_hrefs]. rewrite Hu.
  by rewrite bool_decide_eq_false_2, Ht.
Qed.

(** C1, amended.  In the scenario, whatever the servers answer, the
    extraction returns exactly the link to [/a.html], and sends exactly
    two requests, in document order: one for [/doc.pdf] and one for
    [https://other.com/x.pdf], since the extension is tested before the
    host.  Both are stored under the [pdf] category as soon as their
    server answers with a status outside 400..599. *)
Theorem scenario_extraction :
  let doc := "https://example.com/doc.pdf" in
  let x := "https://other.com/x.pdf" in
  let result := Scenario.extraction web Scenario.fresh in
  result.1 = Return ["https://example.com/a.html"]
  ∧ filter (λ e, is_get e = true) (trace result.2)
    = [Get doc true 20; Get x true 20]
  ∧ save_path_of Scenario.py doc = "downloads/pdf/doc.pdf"
  ∧ save_path_of Scenario.py x = "downloads/pdf/x.pdf"
  ∧ (∀ r, web 0%nat doc = Reply r → http_ok r = true →
       files result.2 !! "downloads/pdf/doc.pdf" = Some (text r))
  ∧ (∀ r, web 1%nat x = Reply r → http_ok r = true →
       files result.2 !! "downloads/pdf/x.pdf" = Some (text r)).
Proof.
  intros doc x result.
  set (self := {| base_url := Scenario.seed; domain := "example.com";
                  target_extensions := [".pdf"] |}).
  set (py := Scenario.py).
  set (st0 := Scenario.started).
  assert (save_path_of py doc = "downloads/pdf/doc.pdf") as Pdoc
    by (vm_compute; reflexivity).
  assert (save_path_of py x = "downloads/pdf/x.pdf") as Px
    by (vm_compute; reflexivity).
  assert (filename_of py doc = "doc.pdf") as Ndoc by (vm_compute; reflexivity).
  assert (filename_of py x = "x.pdf") as Nx by (vm_compute; reflexivity).
  (* the two downloads *)
  assert (path_exists st0 (save_path_of py doc) = false) as Hfresh
    by (rewrite Pdoc; by vm_compute).
  destruct (download_file_fresh py doc st0 Hfresh)
    as (fs1 & es1 & Hdl1 & Hreq1 & Hother1 & Hstore1).
  rewrite ?Pdoc, ?Ndoc in Hdl1, Hother1, Hstore1.
  set (st1 := log (set_files st0 fs1) _) in Hdl1.
  assert (fs1 !! "downloads/pdf/x.pdf" = None) as Hx1.
  { rewrite Hother1 by done. by vm_compute. }
  assert (path_exists st1 (save_path_of py x) = false) as Hfresh'.
  { rewrite Px. unfold st1. rewrite path_exists_touch, Hx1. by vm_compute. }
  destruct (download_file_fresh py x st1 Hfresh')
    as (fs2 & es2 & Hdl2 & Hreq2 & Hother2 & Hstore2).
  rewrite ?Px, ?Nx in Hdl2, Hother2, Hstore2.
  assert (requests_sent (trace st1) = 1%nat) as Hsent.
  { unfold st1. rewrite requests_sent_log.
    change (requests_sent (trace (set_files st0 fs1))) with 0%nat.
    change (requests_sent (Print ?m :: Get ?u ?s ?t :: ?l)) with (S (requests_sent l)).
    lia. }
  rewrite Hsent in Hstore2.
  (* the three tags *)
  assert (result
          = (Return ["https://example.com/a.html"],
             log (set_files st1 fs2)
                 (Print (FoundFile "x.pdf") :: Get x true 20 :: es2))) as ->.
  { unfold result, Scenario.extraction. unfold bind at 1.
    change (init Scenario.py Scenario.seed [".pdf"] Scenario.fresh)
      with (Return self, st0).
    unfold extract_links_and_files.
    change (BeautifulSoup Scenario.py Scenario.page_html) with Scenario.page_tags.
    unfold extract_from_soup.
    change (find_all Scenario.page_tags ["a"; "link"] "href")
      with [Scenario.anchor "/a.html"; Scenario.anchor "/doc.pdf";
            Scenario.anchor "https://other.com/x.pdf"].
    change (existsb _ (getitem FILE_TYPES "images")) with false.
    cbv beta delta [bind].
    rewrite (scan_hrefs_link py self Scenario.seed _ _ _ _ "https://example.com/a.html");
      [|by vm_compute..|apply (bool_decide_unpack _); by vm_compute].
    rewrite (scan_hrefs_file py self Scenario.seed _ _ _ _ doc); [|by vm_compute..].
    cbv beta delta [bind]. rewrite Hdl1. cbv beta iota.
    rewrite (scan_hrefs_file py self Scenario.seed _ _ _ _ x); [|by vm_compute..].
    cbv beta delta [bind]. rewrite Hdl2. reflexivity. }
  cbn [fst snd].
  split; [done|]. split.
  { unfold st1. cbn [trace log set_files].
    change (trace st0) with (@nil event). cbn [app].
    change (filter ?P (Print ?m :: Get ?u ?s ?t :: ?l))
      with (Get u s t :: filter P l).
    rewrite filter_app.
    change (filter ?P (Print ?m :: Get ?u ?s ?t :: ?l))
      with (Get u s t :: filter P l).
    unfold requests_sent in Hreq1, Hreq2.
    apply length_zero_iff_nil in Hreq1, Hreq2. by rewrite Hreq1, Hreq2. }
  split; [done|]. split; [done|]. split.
  - intros r Hr Hok. cbn [files log set_files].
    rewrite Hother2 by done. unfold st1. cbn [files log set_files].
    apply Hstore1; [done|done|by vm_compute].
  - intros r Hr Hok. cbn [files log set_files].
    apply Hstore2; [done|done|by vm_compute].
Qed.

End ScenarioClaims.

(** C1, as the specification has it, fails: the link to the other host
    is not discarded.  With servers that answer every request with a
    PDF, the extraction requests [https://other.com/x.pdf] and stores
    it next to [doc.pdf]. *)
Lemma scenario_downloads_cross_domain :
  let result := Scenario.extraction Scenario.web Scenario.fresh in
  result.1 = Return ["https://example.com/a.html"]
  ∧ trace result.2
    = [Print (FoundFile "doc.pdf");
       Get "https://example.com/doc.pdf" true 20;
       OpenWrite "downloads/pdf/doc.pdf";
       WriteChunk "downloads/pdf/doc.pdf" "%PDF-1.4 ";
       WriteChunk "downloads/pdf/doc.pdf" "%%EOF";
       Print (Downloaded "downloads/pdf/doc.pdf");
       Print (FoundFile "x.pdf");
       Get "https://other.com/x.pdf" true 20;
       OpenWrite "downloads/pdf/x.pdf";
       WriteChunk "downloads/pdf/x.pdf" "%PDF-1.4 ";
       WriteChunk "downloads/pdf/x.pdf" "%%EOF";
       Print (Downloaded "downloads/pdf/x.pdf")]
  ∧ files result.2 !! "downloads/pdf/x.pdf" = Some "%PDF-1.4 %%EOF"
  ∧ files result.2 !! "downloads/pdf/doc.pdf" = Some "%PDF-1.4 %%EOF".
Proof. cbv zeta. repeat split; by vm_compute. Qed.

(** ** The crawl loop *)

Section Crawl.
Context (py : library) (web : nat → string → reply).

Lemma set_queue_id st : set_queue st (queue st) = st.
Proof. by destruct st. Qed.

(** The loop that feeds the links back into the queue changes the
    queue only. *)
Lemma enqueue_links links st :
  ∃ q, for_each links (λ link,
         let! visited := get_visited in
         if bool_decide (link ∈ visited) then ret tt else queue_put link) st
       = (Return tt, set_queue st q).
Proof.
  revert st. induction links as [|link links IH]; intros st.
  { exists (queue st). by rewrite set_queue_id. }
  cbn [for_each]. unfold bind at 1. unfold bind at 1, get_visited.
  case_bool_decide.
  - unfold ret at 1. apply IH.
  - unfold queue_put at 1.
    destruct (IH (set_queue st (queue st ++ [link]))) as [q Hq].
    exists q. exact Hq.
Qed.

Lemma handle_response_spec self current_url response st :
  ∃ fs es q,
    handle_response py web self current_url response st
    = (Return tt, set_queue (log (set_files st fs) es) q)
    ∧ visits es = [].
Proof.
  assert (∃ fs es q, (Return tt, st)
                     = (Return tt, set_queue (log (set_files st fs) es) q)
                     ∧ visits es = []) as Hnone.
  { exists (files st), [], (queue st). by rewrite touch_id, set_queue_id. }
  destruct response as [response|]; [|exact Hnone]. cbn [handle_response].
  destruct (PyStr.contains _ _); [|exact Hnone].
  unfold bind at 1, extract_links_and_files.
  destruct (extract_from_soup_spec py web self
              (BeautifulSoup py (text response)) current_url st)
    as (links & fs & es & -> & Hv & _).
  destruct (enqueue_links links (log (set_files st fs) es)) as [q ->].
  by exists fs, es, q.
Qed.

(** One round of the loop. *)
Lemma iteration_spec self st :
  ∃ again st',
    iteration py web self st = (Return again, st')
    ∧ match queue st with
      | [] => again = false ∧ st' = st
      | url :: rest =>
          again = true
          ∧ if bool_decide (url ∈ visited_urls st) then st' = set_queue st rest
            else visited_urls st' = {[url]} ∪ visited_urls st
                 ∧ ∃ es, trace st' = trace st ++ Print (Visiting url) :: es
                         ∧ visits es = []
      end.
Proof.
  unfold iteration, bind at 1, queue_get.
  destruct (queue st) as [|url rest] eqn:Hq.
  { exists false, st. done. }
  unfold bind at 1, get_visited. cbn [visited_urls set_queue].
  case_bool_decide as Hv.
  { by exists true, (set_queue st rest). }
  unfold bind at 1, visited_add at 1. unfold bind at 1.
  set (st1 := set_visited _ _).
  destruct (fetch_page_total web url st1) as (v & es & -> & _ & Hvis & _).
  unfold bind at 1.
  destruct (handle_response_spec self url v
              (log st1 (Print (Visiting url) :: Get url false 10 :: es)))
    as (fs & es' & q & -> & Hvis').
  eexists true, _. split; [done|]. split; [done|]. split; [done|].
  exists (Get url false 10 :: es ++ es'). split.
  - cbn. by rewrite <- app_assoc.
  - change (visits (Get url false 10 :: es ++ es')) with (visits (es ++ es')).
    by rewrite visits_app, Hvis, Hvis'.
Qed.

Lemma iteration_visited_once self st :
  visited_once st → visited_once (iteration py web self st).2.
Proof.
  intros [Hnd Hsub].
  destruct (iteration_spec self st) as (again & st' & -> & Hcase). cbn [snd].
  destruct (queue st) as [|url rest].
  { by destruct Hcase as [_ ->]. }
  destruct Hcase as [_ Hcase]. case_bool_decide as Hv.
  { by subst st'. }
  destruct Hcase as (Hvisited & es & Htrace & Hvis).
  unfold visited_once. rewrite Htrace, Hvisited, visits_app.
  change (visits (Print (Visiting url) :: es)) with (url :: visits es).
  rewrite Hvis. split.
  - apply NoDup_app. split; [done|]. split; [|apply NoDup_singleton].
    intros u Hu Heq%list_elem_of_singleton. subst u. auto.
  - intros u [Hu|Heq%list_elem_of_singleton]%elem_of_app; apply elem_of_union.
    + right. auto.
    + left. by apply elem_of_singleton.
Qed.

Lemma crawl_visited_once self rounds st :
  visited_once st → visited_once (crawl py web self rounds st).2.
Proof.
  revert st. induction rounds as [|n IH]; intros st Hst; [done|].
  cbn [crawl]. unfold bind.
  pose proof (iteration_visited_once self st Hst) as Hstep.
  destruct (iteration_spec self st) as (again & st' & Heq & _).
  rewrite Heq in Hstep |- *. cbn [snd] in Hstep.
  destruct again; [by apply IH|done].
Qed.

(** C2.  Start the loop of [run] on any queue at all, with nothing
    visited yet and any file system: however many rounds it runs, no URL
    has been handed to [fetch_page] twice, and the URLs handed to it are
    in the visited set.  A round that takes an already visited URL off
    the queue does nothing else; a round that takes a new one off adds
    it to the visited set first and then fetches it.  [run] is this
    loop on the queue that holds the seed. *)
Theorem frontier_dedup (self : WebScraper) (pending : list string)
    (fs : gmap string string) (ds : gset string) (rounds : nat) :
  let start := {| queue := pending; visited_urls := ∅; files := fs;
                  dirs := ds; trace := [] |} in
  let final := (crawl py web self rounds start).2 in
  NoDup (visits (trace final))
  ∧ (∀ url, url ∈ visits (trace final) → url ∈ visited_urls final)
  ∧ (∀ st url rest, queue st = url :: rest → url ∈ visited_urls st →
       iteration py web self st = (Return true, set_queue st rest))
  ∧ (∀ st url rest, queue st = url :: rest → url ∉ visited_urls st →
       iteration py web self st
       = (let! response := fetch_page web url in
          handle_response py web self url response >> ret true)
           (set_visited (set_queue st rest) ({[url]} ∪ visited_urls st)))
  ∧ (∀ url st, ∃ v es,
       fetch_page web url st
       = (Return v, log st (Print (Visiting url) :: es)) ∧ visits es = [])
  ∧ run py web self rounds (set_queue start [])
    = crawl py web self rounds (set_queue start [base_url self]).
Proof.
  intros start final.
  assert (visited_once final) as [Hnd Hsub].
  { apply crawl_visited_once. split; [apply NoDup_nil_2|].
    intros url Hin. by apply elem_of_nil in Hin. }
  split; [done|]. split; [done|]. split.
  { intros st url rest Hq Hv. unfold iteration, bind at 1, queue_get.
    rewrite Hq. unfold bind at 1, get_visited. cbn [visited_urls set_queue].
    by rewrite bool_decide_eq_true_2. }
  split.
  { intros st url rest Hq Hv. unfold iteration, bind at 1, queue_get.
    rewrite Hq. unfold bind at 1, get_visited. cbn [visited_urls set_queue].
    by rewrite bool_decide_eq_false_2. }
  split; [|done].
  intros url st.
  destruct (fetch_page_total web url st) as (v & es & -> & _ & Hvis & _).
  by exists v, (Get url false 10 :: es).
Qed.

End Crawl.

(** The whole crawl of a site of two pages: each page is fetched once
    although the home page is linked again from the second page, the PDF
    is stored once, and its second discovery is skipped as a duplicate.
    The loop ends in the third round, on the empty queue. *)
Example crawl_small_site :
  let result := Scenario.crawl_site 3 Scenario.fresh in
  result.1 = Return true
  ∧ trace result.2
    = [Print (Visiting "https://example.com");
       Get "https://example.com" false 10;
       Print (FoundFile "doc.pdf");
       Get "https://example.com/doc.pdf" true 20;
       OpenWrite "downloads/pdf/doc.pdf";
       WriteChunk "downloads/pdf/doc.pdf" "%PDF-1.4 ";
       WriteChunk "downloads/pdf/doc.pdf" "%%EOF";
       Print (Downloaded "downloads/pdf/doc.pdf");
       Print (Visiting "https://example.com/a.html");
       Get "https://example.com/a.html" false 10;
       Print (SkippingDuplicate "doc.pdf")]
  ∧ queue result.2 = []
  ∧ (Scenario.crawl_site 2 Scenario.fresh).1 = Return false.
Proof. cbv zeta. repeat split; by vm_compute. Qed.

(** * Further properties of the code *)

(** ** The extension lists of the menu *)

Example get_extensions_by_mode_2 :
  get_extensions_by_mode 2
  = [".doc"; ".docx"; ".txt"; ".rtf"; ".ppt"; ".pptx"; ".xls"; ".xlsx"; ".csv";
     ".zip"; ".rar"; ".7z"; ".tar"; ".gz"; ".doc"; ".docx"; ".txt"; ".rtf"].
Proof. reflexivity. Qed.

Lemma get_extensions_by_mode_cases mode :
  get_extensions_by_mode mode = get_extensions_by_mode 1
  ∨ get_extensions_by_mode mode = get_extensions_by_mode 2
  ∨ get_extensions_by_mode mode = get_extensions_by_mode 3
  ∨ (get_extensions_by_mode mode = [] ∧ mode ∉ [1; 2; 3]).
Proof.
  destruct (Z.eqb_spec mode 1) as [->|H1]; [by left|].
  destruct (Z.eqb_spec mode 2) as [->|H2]; [by right; left|].
  destruct (Z.eqb_spec mode 3) as [->|H3]; [by right; right; left|].
  right. right. right. split.
  - unfold get_extensions_by_mode.
    by rewrite (proj2 (Z.eqb_neq _ _) H1), (proj2 (Z.eqb_neq _ _) H2),
      (proj2 (Z.eqb_neq _ _) H3).
  - intros Hin. repeat (apply elem_of_cons in Hin as [?|Hin]; [done|]).
    by apply elem_of_nil in Hin.
Qed.

(** X1.  Whatever the mode, every extension that
    [get_extensions_by_mode] returns is listed in [FILE_TYPES], has no
    capital letter, and is classified into one of the six folders of
    the table, never into [others]; a mode other than 1, 2, 3 gives no
    extension at all. *)
Theorem get_extensions_by_mode_listed (mode : Z) :
  Forall (λ ext, ext ∈ mjoin (snd <$> FILE_TYPES)
                 ∧ has_upper ext = false
                 ∧ get_download_folder ext ∈ (fst <$> FILE_TYPES))
         (get_extensions_by_mode mode)
  ∧ (mode ∉ [1; 2; 3] → get_extensions_by_mode mode = []).
Proof.
  split.
  - destruct (get_extensions_by_mode_cases mode) as [->|[->|[->|[-> _]]]];
      [..|by constructor];
      repeat (constructor;
              [split; [apply (bool_decide_unpack _); by vm_compute|];
               split; [by vm_compute|apply (bool_decide_unpack _); by vm_compute]|]);
      constructor.
  - intros Hmode.
    destruct (get_extensions_by_mode_cases mode) as [H|[H|[H|[H _]]]]; [..|done].
    all: exfalso; apply Hmode; revert H; unfold get_extensions_by_mode at 1.
    all: destruct (Z.eqb_spec mode 1) as [->|_]; [intros _; by left|].
    all: destruct (Z.eqb_spec mode 2) as [->|_]; [intros _; right; by left|].
    all: destruct (Z.eqb_spec mode 3) as [->|_]; [intros _; right; right; by left|].
    all: intros H; vm_compute in H; discriminate H.
Qed.

Section Modes.
Context (py : library) (web : nat → string → reply).

Lemma find_all_without soup names attr (skip : string) :
  skip ∉ names →
  find_all (filter (λ tag, name tag ≠ skip) soup) names attr
  = find_all soup names attr.
Proof.
  intros Hskip. unfold find_all. rewrite list_filter_filter.
  apply list_filter_iff. intros tag. split; [tauto|].
  intros [Hin Hattr]. split; [done|]. intros Heq. apply Hskip. by rewrite <- Heq.
Qed.

(** X2.  The [img] tags of a page are looked at in mode 3 only: the
    test that guards the second loop of the extractor holds exactly for
    the extension list of mode 3, and for a scraper built with the list
    of any other mode the extractor does the same on a page and on the
    page without its [img] tags. *)
Theorem images_scanned_in_mode_3_only (mode : Z) (self : WebScraper)
    (soup : list Tag) (current_url : string) (st : state) :
  existsb (λ ext, bool_decide (ext ∈ get_extensions_by_mode mode))
          (getitem FILE_TYPES "images")
  = (mode =? 3)
  ∧ (target_extensions self = get_extensions_by_mode mode → mode ≠ 3 →
     extract_from_soup py web self soup current_url st
     = extract_from_soup py web self
         (filter (λ tag, name tag ≠ "img") soup) current_url st).
Proof.
  assert (existsb (λ ext, bool_decide (ext ∈ get_extensions_by_mode mode))
            (getitem FILE_TYPES "images") = (mode =? 3)) as Hcond.
  { destruct (Z.eqb_spec mode 3) as [->|H3]; [reflexivity|].
    destruct (get_extensions_by_mode_cases mode) as [->|[->|[H|[-> _]]]];
      [reflexivity..| |reflexivity].
    exfalso. apply H3. revert H. unfold get_extensions_by_mode at 1.
    destruct (Z.eqb_spec mode 1) as [->|_]; [intros H; vm_compute in H; discriminate H|].
    destruct (Z.eqb_spec mode 2) as [->|_]; [intros H; vm_compute in H; discriminate H|].
    destruct (Z.eqb_spec mode 3) as [->|_]; [done|].
    intros H; vm_compute in H; discriminate H. }
  split; [exact Hcond|].
  intros Hexts Hmode. unfold extract_from_soup.
  rewrite Hexts, Hcond.
  rewrite (proj2 (Z.eqb_neq mode 3) Hmode).
  rewrite find_all_without; [done|].
  intros Hin. repeat (apply elem_of_cons in Hin as [?|Hin]; [done|]).
  by apply elem_of_nil in Hin.
Qed.

(** X3.  [is_target_file] depends on the target extensions as a set:
    two scrapers whose lists have the same elements, in whatever order
    and however often, agree on every URL.  (So the repeated [docs]
    list of mode 2 changes nothing.) *)
Theorem is_target_file_set (self1 self2 : WebScraper) (url : string) :
  (∀ ext, ext ∈ target_extensions self1 ↔ ext ∈ target_extensions self2) →
  is_target_file py self1 url = is_target_file py self2 url.
Proof.
  intros Hsame. unfold is_target_file.
  apply eq_true_iff_eq. rewrite !existsb_exists.
  split; intros (ext & Hin & Hend); exists ext; split; try done;
    apply list_elem_of_In, Hsame, list_elem_of_In, Hin.
Qed.

End Modes.

(** X3 for the list of mode 2 and the same list without the repeated
    part. *)
Lemma is_target_file_set_witness :
  let self1 := {| base_url := "https://h"; domain := "h";
                  target_extensions := get_extensions_by_mode 2 |} in
  let self2 := {| base_url := "https://h"; domain := "h";
                  target_extensions := take 14 (get_extensions_by_mode 2) |} in
  (∀ ext, ext ∈ target_extensions self1 ↔ ext ∈ target_extensions self2)
  ∧ ¬ NoDup (target_extensions self1)
  ∧ is_target_file Scenario.py self1 "https://h/notes.TXT"
    = is_target_file Scenario.py self2 "https://h/notes.TXT".
Proof.
  intros self1 self2.
  assert (∀ ext, ext ∈ target_extensions self1 ↔ ext ∈ target_extensions self2) as Hsame.
  { intros ext. vm_compute target_extensions. set_solver. }
  split; [exact Hsame|]. split.
  - intros Hnd. vm_compute target_extensions in Hnd.
    apply NoDup_cons in Hnd as [Hnot _]. apply Hnot. set_solver.
  - exact (is_target_file_set Scenario.py self1 self2 "https://h/notes.TXT" Hsame).
Defined.

(** ** The download directories *)

Lemma set_dirs_id st : set_dirs st (dirs st) = st.
Proof. by destruct st. Qed.

Lemma ensure_dir_exists st p : path_exists (ensure_dir st p) p = true.
Proof.
  unfold ensure_dir. destruct (path_exists st p) eqn:Hex; [done|].
  unfold path_exists. cbn [dirs set_dirs].
  rewrite bool_decide_eq_true_2; [done|]. apply elem_of_union. left.
  by apply elem_of_singleton.
Qed.

Lemma ensure_dir_mono st p q :
  path_exists st q = true → path_exists (ensure_dir st p) q = true.
Proof.
  unfold ensure_dir. destruct (path_exists st p); [done|].
  unfold path_exists. cbn [dirs files set_dirs].
  intros [Hd|Hf]%orb_true_iff; apply orb_true_iff; [left|by right].
  apply bool_decide_eq_true. apply bool_decide_eq_true in Hd.
  apply elem_of_union. by right.
Qed.

Lemma ensure_dir_present st p : path_exists st p = true → ensure_dir st p = st.
Proof. unfold ensure_dir. by intros ->. Qed.

Lemma ensure_dir_frame st p :
  queue (ensure_dir st p) = queue st
  ∧ visited_urls (ensure_dir st p) = visited_urls st
  ∧ files (ensure_dir st p) = files st
  ∧ trace (ensure_dir st p) = trace st
  ∧ dirs st ⊆ dirs (ensure_dir st p)
  ∧ dirs (ensure_dir st p) ⊆ {[p]} ∪ dirs st.
Proof.
  unfold ensure_dir.
  destruct (path_exists st p); cbn [queue visited_urls files trace dirs set_dirs];
    (do 4 (split; [done|])); split; intros x Hx; try done.
  all: try (apply elem_of_union; by right).
Qed.

Lemma ensure_dirs_exist ps st :
  Forall (λ p, path_exists (foldl ensure_dir st ps) p = true) ps.
Proof.
  revert st. induction ps as [|p ps IH] using rev_ind; intros st; [constructor|].
  rewrite foldl_app. cbn [foldl]. apply Forall_app. split.
  - eapply Forall_impl; [apply (IH st)|]. intros q Hq. cbv beta in Hq |- *.
    apply ensure_dir_mono. exact Hq.
  - constructor; [apply ensure_dir_exists|constructor].
Qed.

Lemma ensure_dirs_present ps st :
  Forall (λ p, path_exists st p = true) ps → foldl ensure_dir st ps = st.
Proof.
  induction 1 as [|p ps Hp _ IH]; [done|].
  cbn [foldl]. by rewrite ensure_dir_present.
Qed.

Lemma ensure_dirs_frame ps st :
  queue (foldl ensure_dir st ps) = queue st
  ∧ visited_urls (foldl ensure_dir st ps) = visited_urls st
  ∧ files (foldl ensure_dir st ps) = files st
  ∧ trace (foldl ensure_dir st ps) = trace st
  ∧ dirs st ⊆ dirs (foldl ensure_dir st ps)
  ∧ dirs (foldl ensure_dir st ps) ⊆ list_to_set ps ∪ dirs st.
Proof.
  revert st. induction ps as [|p ps IH]; intros st.
  { cbn. repeat split; try done. intros x Hx. apply elem_of_union. by right. }
  cbn [foldl].
  destruct (IH (ensure_dir st p)) as (Hq & Hv & Hf & Ht & Hlo & Hhi).
  destruct (ensure_dir_frame st p) as (Hq' & Hv' & Hf' & Ht' & Hlo' & Hhi').
  rewrite Hq, Hv, Hf, Ht. repeat split; try done.
  - by etrans.
  - intros x Hx. apply Hhi in Hx. cbn [list_to_set].
    apply elem_of_union in Hx as [Hx|Hx].
    + apply elem_of_union. left. apply elem_of_union. by right.
    + apply Hhi' in Hx. apply elem_of_union in Hx as [Hx|Hx].
      * apply elem_of_union. left. apply elem_of_union. by left.
      * apply elem_of_union. by right.
Qed.

(** The loop of [create_directories] over the keys of the table. *)
Lemma for_each_ensure_dir folders st :
  for_each folders (λ folder,
    let p := OsPath.join base_download_path [folder] in
    let! present := os_path_exists p in
    if present then ret tt else os_makedirs p) st
  = (Return tt,
     foldl ensure_dir st
       ((λ folder, OsPath.join base_download_path [folder]) <$> folders)).
Proof.
  revert st. induction folders as [|f folders IH]; intros st; [done|].
  cbn [for_each fmap list_fmap foldl]. unfold bind at 1.
  unfold bind at 1, os_path_exists, ensure_dir.
  destruct (path_exists st _); [unfold ret at 1|unfold os_makedirs at 1]; apply IH.
Qed.

Lemma foldl_ensure_dir_cons st p ps :
  foldl ensure_dir st (p :: ps) = foldl ensure_dir (ensure_dir st p) ps.
Proof. reflexivity. Qed.

Lemma create_directories_eq st :
  create_directories st = (Return tt, foldl ensure_dir st download_dirs).
Proof.
  unfold download_dirs. rewrite foldl_ensure_dir_cons. unfold category_dirs.
  rewrite <- (for_each_ensure_dir (fst <$> FILE_TYPES)
                (ensure_dir st base_download_path)).
  unfold create_directories, bind at 1, os_path_exists.
  unfold bind at 1, ensure_dir.
  destruct (path_exists st base_download_path); reflexivity.
Qed.

Lemma download_dirs_eq :
  download_dirs
  = ["downloads"; "downloads/pdf"; "downloads/docs"; "downloads/ppt";
     "downloads/xls"; "downloads/zip"; "downloads/images"].
Proof. vm_compute. reflexivity. Qed.



(** ** More on downloads *)

Section DownloadMore.
Import PyStr PyStrFacts.
Context (py : library) (web : nat → string → reply).

Lemma rfind_from_absent c l i found :
  c ∉ l → rfind_from c l i found = found.
Proof.
  revert i found. induction l as [|x l IH]; intros i found Hl; [done|].
  apply not_elem_of_cons in Hl as [Hx Hl]. cbn [rfind_from].
  rewrite decide_False by done. by apply IH.
Qed.

Lemma rfind_from_last c l k i found :
  c ∉ k → rfind_from c (l ++ c :: k) i found = i + Z.of_nat (length l).
Proof.
  intros Hk. revert i found. induction l as [|x l IH]; intros i found.
  - cbn [app rfind_from length]. rewrite decide_True by done.
    rewrite rfind_from_absent by done. lia.
  - cbn [app rfind_from length]. rewrite IH. lia.
Qed.

(** The directory of [a/name] is [a] when [name] has no separator. *)
Lemma dirname_join a name :
  "/"%char ∉ chars name → dirname (a +:+ "/" +:+ name) = a.
Proof.
  intros Hname. unfold dirname, slice_to, rfind, OsPath.sep.
  rewrite chars_app. change (chars ("/" +:+ name)) with ("/"%char :: chars name).
  rewrite rfind_from_last by done.
  rewrite Z.add_0_l, Nat2Z.id, take_app_length. apply of_chars_chars.
Qed.

Lemma dirname_save_path file_url :
  dirname (save_path_of py file_url)
  = "downloads/" +:+ folder_of (filename_of py file_url).
Proof.
  rewrite save_path_of_shape, <- string_app_assoc.
  apply dirname_join, filename_of_no_sep.
Qed.

(** X5.  A file whose category directory does not exist is never
    stored: [download_file] returns normally, opens no file and leaves
    the storage as it was; when the server answered, the failure
    printed is the [OSError] of [open].  ([create_directories] makes no
    directory for [others], so after it this is the fate of every file
    classified as [others] unless that directory was there before.) *)
Theorem download_file_missing_directory (file_url : string) (st : state) :
  "downloads/" +:+ folder_of (filename_of py file_url) ∉ dirs st →
  let result := download_file py web file_url st in
  result.1 = Return tt
  ∧ files result.2 = files st
  ∧ files_opened (trace result.2) = files_opened (trace st)
  ∧ (∀ r, path_exists st (save_path_of py file_url) = false →
       web (requests_sent (trace st)) file_url = Reply r → http_ok r = true →
       last (trace result.2)
       = Some (Print (FailedToDownload file_url (OSError (save_path_of py file_url))))).
Proof.
  intros Hdir result.
  assert (can_open st (save_path_of py file_url) = false) as Hopen.
  { unfold can_open. rewrite dirname_save_path.
    by rewrite bool_decide_eq_false_2. }
  unfold result. rewrite download_file_eq. cbv zeta. rewrite Hopen.
  assert (∀ es : list event, files_opened es = 0%nat →
            files_opened (trace (log st es)) = files_opened (trace st)) as Hzero.
  { intros es Hes. rewrite files_opened_log, Hes. lia. }
  destruct (path_exists st _) eqn:Hex.
  { cbn [fst snd]. split; [done|]. split; [done|]. split; [by apply Hzero|].
    intros; congruence. }
  destruct (web _ file_url) as [|r] eqn:Hweb.
  { cbn [fst snd]. split; [done|]. split; [done|]. split; [by apply Hzero|].
    intros; congruence. }
  unfold http_ok. destruct (_ && _) eqn:Hstatus.
  { cbn [fst snd]. split; [done|]. split; [done|]. split; [by apply Hzero|].
    intros ? _ [= <-] Hok. by rewrite Hstatus in Hok. }
  cbn [fst snd]. split; [done|]. split; [done|]. split; [by apply Hzero|].
  intros ? _ _ _. cbn [trace log]. rewrite app_assoc. apply last_snoc.
Qed.

Lemma download_event_chunks p chunks : Forall download_event (WriteChunk p <$> chunks).
Proof. induction chunks as [|x chunks IH]; constructor; done. Qed.

Lemma filter_get_chunks p chunks :
  filter (λ e, is_get e = true) (WriteChunk p <$> chunks) = [].
Proof. induction chunks as [|x chunks IH]; [done|]. exact IH. Qed.

Lemma path_exists_false st p : path_exists st p = false → files st !! p = None.
Proof.
  unfold path_exists. intros [_ Hf]%orb_false_iff.
  apply bool_decide_eq_false in Hf. by apply eq_None_not_Some.
Qed.

(** What [download_file] adds to the trace and to the storage. *)
Lemma download_file_events file_url st :
  ∃ fs es,
    download_file py web file_url st = (Return tt, log (set_files st fs) es)
    ∧ Forall download_event es
    ∧ filter (λ e, is_get e = true) es
      = (if path_exists st (save_path_of py file_url) then []
         else [Get file_url true 20])
    ∧ files st ⊆ fs.
Proof.
  rewrite download_file_eq. cbv zeta.
  destruct (path_exists st _) eqn:Hex.
  { eexists (files st), _. rewrite set_files_id. split; [done|].
    split; [by repeat constructor|done]. }
  destruct (web _ file_url) as [|r].
  { eexists (files st), _. rewrite set_files_id. split; [done|].
    split; [by repeat constructor|done]. }
  destruct (_ && _).
  { eexists (files st), _. rewrite set_files_id. split; [done|].
    split; [by repeat constructor|done]. }
  destruct (can_open st _).
  2:{ eexists (files st), _. rewrite set_files_id. split; [done|].
      split; [by repeat constructor|done]. }
  eexists _, _. split; [done|]. split; [|split].
  - apply Forall_app. split; [by repeat constructor|].
    constructor; [done|]. apply Forall_app. split; [apply download_event_chunks|].
    constructor; [by destruct (intact r)|constructor].
  - rewrite filter_app.
    change (filter _ [Print _; Get ?u ?s ?t]) with [Get u s t].
    change (filter ?P (OpenWrite ?p :: ?l)) with (filter P l).
    rewrite filter_app, filter_get_chunks. by destruct (intact r).
  - apply insert_subseteq. by apply path_exists_false.
Qed.

Lemma download_event_no_sleep es : Forall download_event es → slept es = 0.
Proof.
  induction 1 as [|e es He _ IH]; [done|].
  cbn [slept foldr]. fold (slept es). rewrite IH.
  by destruct e as [m| | | |].
Qed.

(** X6.  [download_file] never retries and never pauses: one call
    sends no request when the destination exists and exactly one
    otherwise, a streamed GET of the file URL with timeout 20, whatever
    the answer; it prints only its own four kinds of lines, and it
    touches neither the queue, the visited set nor the directories. *)
Theorem download_file_single_request (file_url : string) (st : state) :
  ∃ fs es,
    download_file py web file_url st = (Return tt, log (set_files st fs) es)
    ∧ Forall download_event es
    ∧ slept es = 0
    ∧ filter (λ e, is_get e = true) es
      = (if path_exists st (save_path_of py file_url) then []
         else [Get file_url true 20]).
Proof.
  destruct (download_file_events file_url st) as (fs & es & Heq & Hev & Hget & _).
  exists fs, es. split; [done|]. split; [done|]. split; [|done].
  by apply download_event_no_sleep.
Qed.

End DownloadMore.

(** X5 in the scenario: a link to [/.pdf] is a target file, its name
    [.pdf] has no extension for [splitext], and it is not stored. *)
Lemma download_file_missing_directory_witness :
  let url := "https://example.com/.pdf" in
  let result := download_file Scenario.py Scenario.web url Scenario.started in
  ("downloads/" +:+ folder_of (filename_of Scenario.py url) ∉ dirs Scenario.started)
  ∧ folder_of (filename_of Scenario.py url) = "others"
  ∧ result.1 = Return tt
  ∧ files result.2 = files Scenario.started
  ∧ files_opened (trace result.2) = files_opened (trace Scenario.started).
Proof.
  intros url result.
  assert ("downloads/" +:+ folder_of (filename_of Scenario.py url)
          ∉ dirs Scenario.started) as Hdir.
  { apply (bool_decide_unpack _). vm_compute. exact I. }
  split; [exact Hdir|]. split; [vm_compute; reflexivity|].
  destruct (download_file_missing_directory Scenario.py Scenario.web url
              Scenario.started Hdir) as (H1 & H2 & H3 & _).
  split; [exact H1|]. split; [exact H2|exact H3].
Defined.

(** ** More on file names *)

Section FileNames.
Import PyStr PyStrFacts.

Lemma filter_all {A} (P : A → Prop) `{!∀ x, Decision (P x)} (l : list A) :
  Forall P l → filter P l = l.
Proof.
  induction 1 as [|x l Hx _ IH]; [done|].
  rewrite filter_cons_True by done. by rewrite IH.
Qed.

Lemma lstrip_fixed l :
  (∀ c, head l = Some c → isspace c = false) → lstrip_chars l = l.
Proof.
  destruct l as [|c l]; [done|]. intros H. cbn [lstrip_chars].
  by rewrite (H c eq_refl).
Qed.

(** X7.  The clean-up of file names is idempotent: a cleaned name is
    left as it is by a second clean-up. *)
Theorem clean_filename_idempotent (filename : string) :
  clean_filename (clean_filename filename) = clean_filename filename.
Proof.
  apply chars_inj. rewrite (clean_filename_chars (clean_filename filename)).
  rewrite filter_all by apply clean_filename_kept.
  rewrite lstrip_fixed by apply clean_filename_head.
  unfold rstrip_chars. rewrite lstrip_fixed.
  - apply reverse_involutive.
  - intros c. rewrite head_reverse. apply clean_filename_last.
Qed.

Lemma lower_char_idem c : lower_char (lower_char c) = lower_char c.
Proof. all_chars c. Qed.

Lemma lower_idem s : lower (lower s) = lower s.
Proof.
  unfold lower. rewrite chars_of_chars, <- list_fmap_compose. f_equal.
  apply list_fmap_ext. intros _ c _. apply lower_char_idem.
Qed.

Lemma lower_char_sep c : lower_char c = "/"%char ↔ c = "/"%char.
Proof. all_chars c; split; intros H; discriminate H. Qed.

Lemma lower_char_dot c : lower_char c = "."%char ↔ c = "."%char.
Proof. all_chars c; split; intros H; discriminate H. Qed.

Lemma rfind_from_fmap (f : ascii → ascii) c l i found :
  (∀ x, f x = c ↔ x = c) →
  rfind_from c (f <$> l) i found = rfind_from c l i found.
Proof.
  intros Hf. revert i found. induction l as [|x l IH]; intros i found; [done|].
  cbn [fmap list_fmap rfind_from]. rewrite IH. f_equal.
  destruct (decide (x = c)) as [Hx|Hx].
  - rewrite decide_True; [done|]. by apply Hf.
  - rewrite decide_False; [done|]. intros H. by apply Hx, Hf.
Qed.

Lemma has_non_dot_fmap (f : ascii → ascii) l :
  (∀ x, f x = "."%char ↔ x = "."%char) →
  OsPath.has_non_dot (f <$> l) = OsPath.has_non_dot l.
Proof.
  intros Hf. induction l as [|x l IH]; [done|].
  cbn [fmap list_fmap OsPath.has_non_dot]. unfold OsPath.extsep.
  destruct (decide (x = "."%char)) as [Hx|Hx].
  - rewrite decide_True; [exact IH|]. by apply Hf.
  - rewrite decide_False; [done|]. intros H. by apply Hx, Hf.
Qed.

Lemma lower_of_chars l : lower (of_chars l) = of_chars (lower_char <$> l).
Proof. unfold lower. by rewrite chars_of_chars. Qed.

Lemma chars_lower s : chars (lower s) = lower_char <$> chars s.
Proof. unfold lower. apply chars_of_chars. Qed.

(** The extension of the lowered name is the lowered extension. *)
Lemma splitext_lower p :
  (OsPath.splitext (lower p)).2 = lower (OsPath.splitext p).2.
Proof.
  unfold OsPath.splitext, rfind, OsPath.sep, OsPath.extsep.
  rewrite chars_lower.
  rewrite !rfind_from_fmap by (apply lower_char_sep || apply lower_char_dot).
  rewrite <- fmap_take, <- fmap_drop.
  rewrite has_non_dot_fmap by apply lower_char_dot.
  destruct (_ && _); cbn [snd]; [|done].
  unfold slice_from. rewrite chars_lower, <- fmap_drop.
  by rewrite lower_of_chars.
Qed.

(** X8.  The category of a file does not depend on the case of its
    name: a name and its lower-case form are put in the same folder. *)
Theorem folder_of_case_insensitive (filename : string) :
  folder_of (lower filename) = folder_of filename.
Proof.
  unfold folder_of. by rewrite splitext_lower, lower_idem.
Qed.

End FileNames.

Example folder_of_upper :
  folder_of "REPORT.Final.PDF" = "pdf" ∧ folder_of "report.final.pdf" = "pdf"
  ∧ folder_of "archive.tar.GZ" = "zip" ∧ folder_of ".pdf" = "others"
  ∧ folder_of "README" = "others".
Proof. by vm_compute. Qed.

(** ** More on fetching *)

Lemma slept_app t t' : slept (t ++ t') = slept t + slept t'.
Proof.
  induction t as [|e t IH]; [done|].
  cbn [app slept foldr]. fold (slept (t ++ t')) (slept t). rewrite IH.
  destruct e; lia.
Qed.

Lemma failed_attempts_app t t' :
  failed_attempts (t ++ t') = (failed_attempts t + failed_attempts t')%nat.
Proof. unfold failed_attempts. by rewrite filter_app, length_app. Qed.

Section FetchMore.
Context (web : nat → string → reply).

(** The events of the retry loop: two seconds of sleep per failed
    attempt, at most one failed attempt per round, and no request but
    the plain GET of the page. *)
Lemma fetch_attempts_events url retries range st :
  ∃ v evs,
    fetch_attempts web url retries range st = (Return v, log st evs)
    ∧ slept evs = 2 * Z.of_nat (failed_attempts evs)
    ∧ (failed_attempts evs ≤ length range)%nat
    ∧ (is_Some v → failed_attempts evs < length range)%nat
    ∧ filter (λ e, is_get e = true) evs
      = replicate (requests_sent evs) (Get url false 10).
Proof.
  revert st. induction range as [|i rest IH]; intros st.
  { exists None, []. cbn [fetch_attempts]. unfold ret. rewrite log_nil.
    repeat split; try done; try (intros [? [=]]). }
  rewrite fetch_attempts_cons. cbv zeta.
  assert (∀ pre : list event,
            slept pre = 2 * Z.of_nat (failed_attempts pre) →
            (failed_attempts pre ≤ 1)%nat →
            filter (λ e, is_get e = true) pre
            = replicate (requests_sent pre) (Get url false 10) →
      ∃ v evs,
        fetch_attempts web url retries rest (log st pre) = (Return v, log st evs)
        ∧ slept evs = 2 * Z.of_nat (failed_attempts evs)
        ∧ (failed_attempts evs ≤ length (i :: rest))%nat
        ∧ (is_Some v → failed_attempts evs < length (i :: rest))%nat
        ∧ filter (λ e, is_get e = true) evs
          = replicate (requests_sent evs) (Get url false 10)) as Hrec.
  { intros pre Hs Hf Hg.
    destruct (IH (log st pre)) as (v & evs & -> & Hs' & Hf' & Hv' & Hg').
    exists v, (pre ++ evs).
    rewrite log_log, slept_app, failed_attempts_app, filter_app,
      requests_sent_app, replicate_add, Hs, Hs', Hg, Hg'.
    cbn [length]. split; [done|]. split; [lia|]. split; [lia|].
    split; [|done]. intros Hv. specialize (Hv' Hv). lia. }
  destruct (web (requests_sent (trace st)) url) as [|r]; [by apply Hrec|].
  destruct (intact r); [|by apply Hrec].
  destruct (status_code r =? 200).
  { exists (Some r), [Get url false 10]. cbn [length].
    split; [done|]. split; [done|]. split; [vm_compute; lia|].
    split; [intros _; vm_compute; lia|done]. }
  destruct (status_code r =? 404).
  { eexists None, _. cbn [length].
    split; [done|]. split; [done|]. split; [vm_compute; lia|].
    split; [intros [? [=]]|done]. }
  destruct (status_code r =? 403).
  { eexists None, _. cbn [length].
    split; [done|]. split; [done|]. split; [vm_compute; lia|].
    split; [intros [? [=]]|done]. }
  apply Hrec; [done|vm_compute; lia|done].
Qed.


(** X10.  [fetch_page] recovers from transient failures: when the first
    [k] attempts, [k] at most 2, meet no response and the next one
    meets an intact response of status 200, that response is returned,
    after [k] pauses and [k + 1] GETs. *)
Theorem fetch_page_recovers (url : string) (st : state) (k : nat) (r : Response) :
  let n := requests_sent (trace st) in
  let get := Get url false 10 in
  let failed := λ i : nat, [get; Print (ConnectionError (Z.of_nat i + 1) 3); Sleep 2] in
  (k ≤ 2)%nat →
  (∀ j, (j < k)%nat → web (n + j)%nat url = NoReply) →
  web (n + k)%nat url = Reply r → intact r = true → status_code r = 200 →
  fetch_page web url st
  = (Return (Some r),
     log st (Print (Visiting url) :: mjoin (failed <$> seq 0 k) ++ [get])).
Proof.
  intros n get failed Hk Hdown Hr Hi Hs.
  rewrite fetch_page_first, fetch_attempts_cons. cbv zeta.
  rewrite requests_sent_log. change (requests_sent [_]) with 0%nat. fold n.
  destruct k as [|k].
  { rewrite Hr, Hi, Hs. cbn [Z.eqb Pos.eqb]. by rewrite log_log. }
  rewrite (Hdown 0%nat) by lia.
  rewrite log_log, fetch_attempts_cons. cbv zeta.
  rewrite requests_sent_log. change (requests_sent (_ ++ _)) with 1%nat. fold n.
  destruct k as [|k].
  { rewrite Hr, Hi, Hs. cbn [Z.eqb Pos.eqb]. by rewrite log_log. }
  rewrite (Hdown 1%nat) by lia.
  rewrite log_log, fetch_attempts_cons. cbv zeta.
  rewrite requests_sent_log. change (requests_sent (_ ++ _)) with 2%nat. fold n.
  destruct k as [|k]; [|lia].
  rewrite Hr, Hi, Hs. cbn [Z.eqb Pos.eqb]. by rewrite log_log.
Qed.

End FetchMore.

(** X10 for a server that is down for the first request only. *)
Lemma fetch_page_recovers_witness :
  let web := λ (n : nat) (_ : string),
    if bool_decide (n = 0%nat) then NoReply else Reply (Scenario.html "<p>ok</p>") in
  let url := "https://example.com" in
  (1 ≤ 2)%nat
  ∧ (∀ j, (j < 1)%nat → web (requests_sent (trace Scenario.fresh) + j)%nat url = NoReply)
  ∧ web (requests_sent (trace Scenario.fresh) + 1)%nat url
    = Reply (Scenario.html "<p>ok</p>")
  ∧ fetch_page web url Scenario.fresh
    = (Return (Some (Scenario.html "<p>ok</p>")),
       log Scenario.fresh
         [Print (Visiting url); Get url false 10;
          Print (ConnectionError 1 3); Sleep 2; Get url false 10]).
Proof.
  intros web url.
  assert (∀ j, (j < 1)%nat →
            web (requests_sent (trace Scenario.fresh) + j)%nat url = NoReply) as Hdown.
  { intros j Hj. assert (j = 0%nat) as -> by lia. reflexivity. }
  split; [lia|]. split; [exact Hdown|]. split; [reflexivity|].
  exact (fetch_page_recovers web url Scenario.fresh 1 (Scenario.html "<p>ok</p>")
           (le_S _ _ (le_n 1)) Hdown eq_refl eq_refl eq_refl).
Defined.

(** ** More on extraction *)

Section ExtractMore.
Context (py : library) (web : nat → string → reply).

(** The first loop returns, in document order and with repetitions,
    the resolved references that are crawlable, and does nothing but
    downloads. *)
Lemma scan_hrefs_exact self current_url tags new_links st :
  ∃ fs es,
    scan_hrefs py web self current_url tags new_links st
    = (Return (new_links
               ++ filter (crawlable py self st)
                    ((λ tag, resolve_href py current_url (getattr tag "href")) <$> tags)),
       log (set_files st fs) es)
    ∧ Forall download_event es
    ∧ files st ⊆ fs.
Proof.
  revert new_links st. induction tags as [|tag rest IH]; intros new_links st.
  { exists (files st), []. cbn. by rewrite app_nil_r, touch_id. }
  cbn [scan_hrefs fmap list_fmap].
  set (full_url := resolve_href py current_url (getattr tag "href")).
  case_bool_decide as Hempty.
  { destruct (IH new_links st) as (fs & es & -> & Hev & Hfs).
    exists fs, es. split; [|done].
    rewrite filter_cons_False; [done|]. intros (Hne & _). done. }
  destruct (is_target_file py self full_url) eqn:Htarget.
  { unfold bind at 1.
    destruct (download_file_events py web full_url st) as (fs & es & -> & Hev & _ & Hfs).
    destruct (IH new_links (log (set_files st fs) es)) as (fs' & es' & -> & Hev' & Hfs').
    exists fs', (es ++ es'). rewrite touch_touch.
    split; [|split; [by apply Forall_app|by etrans]].
    rewrite filter_cons_False; [done|]. intros (_ & Ht & _). congruence. }
  unfold bind at 1, get_visited.
  destruct (is_internal_link py self full_url) eqn:Hinternal; cbn [andb].
  2:{ destruct (IH new_links st) as (fs & es & -> & Hev & Hfs).
      exists fs, es. split; [|done].
      rewrite filter_cons_False; [done|]. intros (_ & _ & Hi & _). congruence. }
  case_bool_decide as Hvisited; cbn [negb].
  { destruct (IH new_links st) as (fs & es & -> & Hev & Hfs).
    exists fs, es. split; [|done].
    rewrite filter_cons_False; [done|]. intros (_ & _ & _ & Hv). done. }
  destruct (IH (new_links ++ [full_url]) st) as (fs & es & -> & Hev & Hfs).
  exists fs, es. split; [|done].
  rewrite filter_cons_True by done. by rewrite <- app_assoc.
Qed.

Lemma scan_imgs_events self current_url imgs st :
  ∃ fs es,
    for_each imgs (scan_img py web self current_url) st
    = (Return tt, log (set_files st fs) es)
    ∧ Forall download_event es
    ∧ files st ⊆ fs.
Proof.
  revert st. induction imgs as [|img rest IH]; intros st.
  { exists (files st), []. by rewrite touch_id. }
  cbn [for_each]. unfold bind at 1, scan_img at 1.
  destruct (is_target_file py self _).
  - destruct (download_file_events py web
                (urljoin py current_url (getattr img "src")) st)
      as (fs & es & -> & Hev & _ & Hfs).
    destruct (IH (log (set_files st fs) es)) as (fs' & es' & -> & Hev' & Hfs').
    exists fs', (es ++ es'). rewrite touch_touch.
    split; [done|]. split; [by apply Forall_app|by etrans].
  - unfold ret at 1. apply IH.
Qed.

(** The extractor on the parsed document. *)
Lemma extract_from_soup_exact self soup current_url st :
  ∃ fs es,
    extract_from_soup py web self soup current_url st
    = (Return (filter (crawlable py self st)
                 ((λ tag, resolve_href py current_url (getattr tag "href"))
                    <$> find_all soup ["a"; "link"] "href")),
       log (set_files st fs) es)
    ∧ Forall download_event es
    ∧ files st ⊆ fs.
Proof.
  unfold extract_from_soup, bind at 1.
  destruct (scan_hrefs_exact self current_url
              (find_all soup ["a"; "link"] "href") [] st)
    as (fs & es & -> & Hev & Hfs).
  cbn [app]. unfold bind at 1.
  destruct (existsb _ _).
  - destruct (scan_imgs_events self current_url (find_all soup ["img"] "src")
                (log (set_files st fs) es)) as (fs' & es' & -> & Hev' & Hfs').
    exists fs', (es ++ es'). unfold ret. rewrite touch_touch.
    split; [done|]. split; [by apply Forall_app|by etrans].
  - by exists fs, es.
Qed.

(** X11.  Whenever [extract_links_and_files] returns, the list it
    returns is exactly that of the resolved references of the anchor
    and link tags that are non-empty, not target files, internal and
    not yet visited, in document order and as often as they occur.
    Whether it returns or not, it touches neither the queue, the
    visited set nor the directories, every file that was stored before
    is still stored with the same content, and everything it adds to
    the trace comes from the download pipeline: no page is fetched and
    nothing pauses. *)
Theorem extract_links_exact (self : WebScraper) (html_content current_url : string)
    (st : state) :
  let result := extract_links_and_files py web self html_content current_url st in
  (∃ fs es,
      result.2 = log (set_files st fs) es
      ∧ Forall download_event es
      ∧ files st ⊆ fs)
  ∧ (∀ links, result.1 = Return links →
       links
       = filter (crawlable py self st)
           ((λ tag, resolve_href py current_url (getattr tag "href"))
              <$> find_all (BeautifulSoup py html_content) ["a"; "link"] "href")).
Proof.
  cbv zeta. unfold extract_links_and_files.
  destruct (extract_from_soup_exact self (BeautifulSoup py html_content) current_url st)
    as (fs & es & -> & Hev & Hfs).
  cbn [fst snd]. split; [by exists fs, es|]. by intros links [= <-].
Qed.

Lemma is_target_file_nil self url :
  target_extensions self = [] → is_target_file py self url = false.
Proof. intros H. unfold is_target_file. by rewrite H. Qed.

Lemma scan_hrefs_no_target self current_url tags new_links st :
  target_extensions self = [] →
  ∃ links, scan_hrefs py web self current_url tags new_links st
           = (Return links, st).
Proof.
  intros Hexts. revert new_links. induction tags as [|tag rest IH]; intros new_links.
  { by eexists. }
  cbn [scan_hrefs]. case_bool_decide; [apply IH|].
  rewrite is_target_file_nil by done.
  unfold bind at 1, get_visited. destruct (_ && _); apply IH.
Qed.

(** X12.  With an empty list of target extensions the extractor has no
    effect at all: whether it returns or not, the state after it is the
    state before it. *)
Theorem extract_without_targets (self : WebScraper) (html_content current_url : string)
    (st : state) :
  target_extensions self = [] →
  (extract_links_and_files py web self html_content current_url st).2 = st.
Proof.
  intros Hexts. unfold extract_links_and_files, extract_from_soup, bind at 1.
  destruct (scan_hrefs_no_target self current_url
              (find_all (BeautifulSoup py html_content) ["a"; "link"] "href") [] st Hexts)
    as [links ->].
  rewrite Hexts. reflexivity.
Qed.

Lemma is_target_file_empty_extension self url :
  "" ∈ target_extensions self → is_target_file py self url = true.
Proof.
  intros Hin. unfold is_target_file. apply existsb_exists. exists "".
  split; [by apply list_elem_of_In|].
  apply bool_decide_eq_true. apply suffix_nil.
Qed.

(** X13.  When the empty string is among the target extensions,
    the test of [is_target_file] (the [any] of line 68) is true for
    whatever path [urlparse] gives it, and the extractor never returns a link: whenever it returns,
    the list is empty, so the crawl never leaves its first page. *)
Theorem extract_with_empty_extension (self : WebScraper)
    (html_content current_url : string) (st : state) :
  "" ∈ target_extensions self →
  (∀ p, existsb (λ ext, PyStr.endswith (PyStr.lower p) ext) (target_extensions self)
        = true)
  ∧ (∀ links,
       (extract_links_and_files py web self html_content current_url st).1
       = Return links →
       links = []).
Proof.
  intros Hin. split.
  { intros p. apply existsb_exists. exists "".
    split; [by apply list_elem_of_In|].
    apply bool_decide_eq_true. apply suffix_nil. }
  unfold extract_links_and_files.
  destruct (extract_from_soup_exact self (BeautifulSoup py html_content) current_url st)
    as (fs & es & -> & _).
  cbn [fst]. intros links [= <-].
  induction (find_all _ _ _) as [|tag tags IH]; [done|].
  cbn [fmap list_fmap]. rewrite filter_cons_False; [exact IH|].
  intros (_ & Ht & _).
  rewrite is_target_file_empty_extension in Ht by done. discriminate Ht.
Qed.

End ExtractMore.

(** X12 on the page of the scenario: no target, no effect. *)
Lemma extract_without_targets_witness :
  let self := {| base_url := Scenario.seed; domain := "example.com";
                 target_extensions := [] |} in
  target_extensions self = []
  ∧ (extract_links_and_files Scenario.py Scenario.web self Scenario.page_html
       Scenario.seed Scenario.started).2 = Scenario.started.
Proof.
  intros self. split; [reflexivity|].
  exact (extract_without_targets Scenario.py Scenario.web self Scenario.page_html
           Scenario.seed Scenario.started eq_refl).
Defined.

(** X13 on the page of the scenario: with [""] as a target, even
    [/a.html] is downloaded and not returned. *)
Lemma extract_with_empty_extension_witness :
  let self := {| base_url := Scenario.seed; domain := "example.com";
                 target_extensions := [""] |} in
  "" ∈ target_extensions self
  ∧ ∀ links,
      (extract_links_and_files Scenario.py Scenario.web self Scenario.page_html
         Scenario.seed Scenario.started).1 = Return links →
      links = [].
Proof.
  intros self.
  assert ("" ∈ target_extensions self) as Hin by (left).
  split; [exact Hin|].
  exact (proj2 (extract_with_empty_extension Scenario.py Scenario.web self
                  Scenario.page_html Scenario.seed Scenario.started Hin)).
Defined.

(** ** More on the crawl *)

Lemma pages_requested_app t t' :
  pages_requested (t ++ t') = pages_requested t ++ pages_requested t'.
Proof. unfold pages_requested. apply omap_app. Qed.

Lemma download_event_no_page es :
  Forall download_event es → pages_requested es = [] ∧ visits es = [].
Proof.
  induction 1 as [|e es He _ [IHp IHv]]; [done|].
  destruct e as [[]|url [] timeout| | |]; try done.
  by destruct He.
Qed.

Lemma Forall_filter_self {A} (P : A → Prop) `{!∀ x, Decision (P x)} (l : list A) :
  Forall P (filter P l).
Proof.
  induction l as [|x l IH]; [constructor|].
  destruct (decide (P x)) as [Hx|Hx].
  - rewrite filter_cons_True by done. by constructor.
  - by rewrite filter_cons_False.
Qed.

Section CrawlMore.
Context (py : library) (web : nat → string → reply).

(** The loop of [run] over the links of a page. *)
Lemma enqueue_links_exact links st :
  for_each links (λ link,
    let! visited := get_visited in
    if bool_decide (link ∈ visited) then ret tt else queue_put link) st
  = (Return tt,
     set_queue st (queue st ++ filter (λ link, link ∉ visited_urls st) links)).
Proof.
  revert st. induction links as [|link links IH]; intros st.
  { cbn. unfold ret. by rewrite app_nil_r, set_queue_id. }
  cbn [for_each]. unfold bind at 1. unfold bind at 1, get_visited.
  case_bool_decide as Hv.
  - unfold ret at 1. rewrite IH.
    rewrite filter_cons_False; [done|]. intros Hn. exact (Hn Hv).
  - unfold queue_put at 1. rewrite IH. cbn [queue visited_urls set_queue].
    rewrite filter_cons_True by done. rewrite <- app_assoc. reflexivity.
Qed.

(** What [fetch_page] prints and requests: the page itself only. *)
Lemma fetch_page_page url st :
  ∃ v evs,
    fetch_page web url st = (Return v, log st evs)
    ∧ visits evs = [url]
    ∧ Forall (λ u, u = url) (pages_requested evs)
    ∧ (∀ r, v = Some r → status_code r = 200).
Proof.
  rewrite fetch_page_first.
  assert (∀ range st0, ∃ v evs,
            fetch_attempts web url 3 range st0 = (Return v, log st0 evs)
            ∧ visits evs = []
            ∧ Forall (λ u, u = url) (pages_requested evs)
            ∧ (∀ r, v = Some r → status_code r = 200)) as Hloop.
  { induction range as [|i rest IH]; intros st0.
    { exists None, []. cbn [fetch_attempts]. unfold ret. rewrite log_nil.
      split; [done|]. split; [done|]. split; [constructor|]. intros r [=]. }
    rewrite fetch_attempts_cons. cbv zeta.
    assert (∀ pre : list event,
              visits pre = [] → pages_requested pre = [url] →
              ∃ v evs,
                fetch_attempts web url 3 rest (log st0 pre) = (Return v, log st0 evs)
                ∧ visits evs = []
                ∧ Forall (λ u, u = url) (pages_requested evs)
                ∧ (∀ r, v = Some r → status_code r = 200)) as Hrec.
    { intros pre Hv Hp.
      destruct (IH (log st0 pre)) as (v & evs & -> & Hv' & Hp' & Hs').
      exists v, (pre ++ evs).
      rewrite log_log, visits_app, pages_requested_app, Hv, Hv', Hp.
      split; [done|]. split; [done|]. split; [|done]. by constructor. }
    destruct (web (requests_sent (trace st0)) url) as [|r]; [by apply Hrec|].
    destruct (intact r); [|by apply Hrec].
    destruct (Z.eqb_spec (status_code r) 200) as [H200|_].
    { exists (Some r), [Get url false 10].
      split; [done|]. split; [done|]. split; [by repeat constructor|].
      by intros ? [= <-]. }
    destruct (status_code r =? 404).
    { eexists None, _. split; [done|]. split; [done|].
      split; [by repeat constructor|]. intros ? [=]. }
    destruct (status_code r =? 403).
    { eexists None, _. split; [done|]. split; [done|].
      split; [by repeat constructor|]. intros ? [=]. }
    by apply Hrec. }
  destruct (Hloop [0; 1; 2] (log st [Print (Visiting url)]))
    as (v & evs & -> & Hv & Hp & Hs).
  exists v, (Print (Visiting url) :: evs). rewrite log_log.
  split; [done|]. split; [|done].
  change (visits (Print (Visiting url) :: evs)) with (url :: visits evs).
  by rewrite Hv.
Qed.

(** What [run] does with the result of [fetch_page]: downloads, and
    crawlable links at the end of the queue. *)
Lemma handle_response_queue self current_url response st :
  ∃ fs es new,
    handle_response py web self current_url response st
    = (Return tt, set_queue (log (set_files st fs) es) (queue st ++ new))
    ∧ Forall download_event es
    ∧ files st ⊆ fs
    ∧ Forall (crawlable py self st) new.
Proof.
  assert (∃ fs es new,
            (Return tt, st)
            = (Return tt, set_queue (log (set_files st fs) es) (queue st ++ new))
            ∧ Forall download_event es ∧ files st ⊆ fs
            ∧ Forall (crawlable py self st) new) as Hnone.
  { exists (files st), [], []. by rewrite touch_id, app_nil_r, set_queue_id. }
  destruct response as [response|]; [|exact Hnone]. cbn [handle_response].
  destruct (PyStr.contains _ _); [|exact Hnone].
  unfold bind at 1, extract_links_and_files.
  destruct (extract_from_soup_exact py web self (BeautifulSoup py (text response))
              current_url st) as (fs & es & -> & Hev & Hfs).
  rewrite enqueue_links_exact. cbn [queue visited_urls log set_files].
  rewrite (filter_all (λ link, link ∉ visited_urls st)).
  2:{ eapply Forall_impl; [apply Forall_filter_self|].
      intros url (_ & _ & _ & Hv). exact Hv. }
  eexists fs, es, _. split; [reflexivity|]. split; [done|]. split; [done|].
  apply Forall_filter_self.
Qed.

(** X14.  After a page of HTML, [run] puts on the queue every link that
    the extractor returned, in the same order and as often as it
    occurs: its own test of the visited set never rejects one, because
    the extractor has made the same test on the same set. *)
Theorem run_enqueues_extracted (self : WebScraper) (current_url : string)
    (response : Response) (st : state) :
  status_code response = 200 →
  PyStr.contains (PyStr.lower (default "" (content_type response))) "text/html" = true →
  ∃ links st',
    extract_links_and_files py web self (text response) current_url st
    = (Return links, st')
    ∧ handle_response py web self current_url (Some response) st
      = (Return tt, set_queue st' (queue st' ++ links)).
Proof.
  intros _ Hhtml. cbn [handle_response]. rewrite Hhtml.
  unfold bind at 1, extract_links_and_files.
  destruct (extract_from_soup_exact py web self (BeautifulSoup py (text response))
              current_url st) as (fs & es & -> & _).
  eexists _, _. split; [reflexivity|].
  rewrite enqueue_links_exact. cbn [queue visited_urls log set_files].
  do 3 f_equal. apply filter_all.
  eapply Forall_impl; [apply Forall_filter_self|].
  intros url (_ & _ & _ & Hv). exact Hv.
Qed.

(** One round of the loop keeps the queue on the host, visits and
    requests pages of the host only, and keeps the stored files and the
    directories. *)
Lemma iteration_scope self st :
  Forall (on_host py self) (queue st) →
  ∃ again st' es,
    iteration py web self st = (Return again, st')
    ∧ trace st' = trace st ++ es
    ∧ Forall (on_host py self) (queue st')
    ∧ Forall (on_host py self) (visits es)
    ∧ Forall (on_host py self) (pages_requested es)
    ∧ files st ⊆ files st'
    ∧ dirs st' = dirs st
    ∧ (again = false → st' = st ∧ queue st = []).
Proof.
  intros Hq. unfold iteration, bind at 1, queue_get.
  destruct (queue st) as [|url rest] eqn:Hqueue.
  { exists false, st, []. rewrite app_nil_r, Hqueue. by repeat split. }
  apply Forall_cons in Hq as [Hurl Hrest].
  unfold bind at 1, get_visited. cbn [visited_urls set_queue].
  case_bool_decide as Hv.
  { exists true, (set_queue st rest), []. cbn [trace set_queue queue files dirs].
    rewrite app_nil_r. by repeat split. }
  unfold bind at 1, visited_add at 1. unfold bind at 1.
  set (st1 := set_visited _ _).
  destruct (fetch_page_page url st1) as (v & evs & -> & Hvis & Hpages & _).
  unfold bind at 1.
  destruct (handle_response_queue self url v (log st1 evs))
    as (fs & es & new & -> & Hev & Hfs & Hnew).
  destruct (download_event_no_page es Hev) as [Hp' Hv'].
  exists true, (set_queue (log (set_files (log st1 evs) fs) es) (queue (log st1 evs) ++ new)),
    (evs ++ es).
  split; [done|]. split; [cbn; by rewrite app_assoc|].
  split.
  { cbn [queue set_queue]. apply Forall_app. split; [exact Hrest|].
    eapply Forall_impl; [exact Hnew|]. intros u (_ & _ & Hi & _).
    right. by apply bool_decide_eq_true in Hi. }
  rewrite visits_app, pages_requested_app, Hvis, Hp', Hv', !app_nil_r.
  split; [constructor; [exact Hurl|constructor]|]. split.
  { eapply Forall_impl; [exact Hpages|]. by intros u ->. }
  split; [exact Hfs|]. split; [done|]. intros [=].
Qed.

Lemma crawl_scope self rounds st :
  Forall (on_host py self) (queue st) →
  ∃ ended st' es,
    crawl py web self rounds st = (Return ended, st')
    ∧ trace st' = trace st ++ es
    ∧ Forall (on_host py self) (visits es)
    ∧ Forall (on_host py self) (pages_requested es)
    ∧ files st ⊆ files st'
    ∧ dirs st' = dirs st
    ∧ (ended = true →
       queue st' = []
       ∧ ∀ more, crawl py web self (rounds + more) st = (Return true, st')).
Proof.
  revert st. induction rounds as [|n IH]; intros st Hq.
  { exists false, st, []. rewrite app_nil_r. by repeat split. }
  cbn [crawl]. unfold bind at 1.
  destruct (iteration_scope self st Hq)
    as (again & st1 & es & Heq & Ht & Hq1 & Hv & Hp & Hf & Hd & Hend).
  rewrite Heq. destruct again.
  - destruct (IH st1 Hq1) as (ended & st2 & es' & -> & Ht' & Hv' & Hp' & Hf' & Hd' & Hend').
    exists ended, st2, (es ++ es').
    split; [done|]. split; [by rewrite Ht', Ht, app_assoc|].
    rewrite visits_app, pages_requested_app.
    split; [by apply Forall_app|]. split; [by apply Forall_app|].
    split; [by etrans|]. split; [by rewrite Hd'|].
    intros Hended. destruct (Hend' Hended) as [Hempty Hmore]. split; [done|].
    intros more. cbn [Nat.add crawl]. unfold bind at 1. rewrite Heq. apply Hmore.
  - destruct Hend as [-> Hempty]; [done|].
    exists true, st, []. rewrite app_nil_r.
    split; [done|]. split; [done|]. split; [constructor|]. split; [constructor|].
    split; [done|]. split; [done|]. intros _. split; [done|].
    intros more. cbn [Nat.add crawl]. unfold bind at 1. by rewrite Heq.
Qed.

(** X15.  A crawl stays on the host of its seed.  For a scraper whose
    domain is the network location of its seed, as [__init__] sets it,
    and whose queue is empty when [run] begins: every URL that the run
    announces as visited, and every URL that it requests as a page
    (the GETs of [fetch_page]), has the network location of the seed,
    however many rounds the loop makes and whatever the servers answer.
    (Files are another matter: they are requested wherever they are.) *)
Theorem scraper_stays_on_host (self : WebScraper) (rounds : nat) (st : state) :
  domain self = netloc (urlparse py (base_url self)) →
  queue st = [] →
  let final := (run py web self rounds st).2 in
  ∃ es,
    trace final = trace st ++ es
    ∧ Forall (λ url, netloc (urlparse py url) = domain self) (visits es)
    ∧ Forall (λ url, netloc (urlparse py url) = domain self) (pages_requested es).
Proof.
  intros Hdomain Hqueue. cbv zeta.
  change (run py web self rounds st)
    with (crawl py web self rounds (set_queue st (queue st ++ [base_url self]))).
  destruct (crawl_scope self rounds (set_queue st (queue st ++ [base_url self])))
    as (ended & final & es & -> & Ht & Hv & Hp & _).
  { cbn [queue set_queue]. rewrite Hqueue. constructor; [by left|constructor]. }
  exists es. split; [exact Ht|].
  assert (∀ url, on_host py self url → netloc (urlparse py url) = domain self)
    as Hhost.
  { intros url [->|Hn]; [done|exact Hn]. }
  split; (eapply Forall_impl; [eassumption|exact Hhost]).
Qed.

(** X17.  A crawl never deletes, overwrites or truncates a file that
    was stored before it began, and it creates no directory: the files
    of the start are all there at the end with their content, and the
    set of directories is the same. *)
Theorem run_keeps_files (self : WebScraper) (rounds : nat) (st : state) :
  let final := (run py web self rounds st).2 in
  files st ⊆ files final ∧ dirs final = dirs st.
Proof.
  cbv zeta.
  change (run py web self rounds st)
    with (crawl py web self rounds (set_queue st (queue st ++ [base_url self]))).
  assert (∀ n st0, ∃ ended final,
            crawl py web self n st0 = (Return ended, final)
            ∧ files st0 ⊆ files final ∧ dirs final = dirs st0) as Hcrawl.
  { induction n as [|n IH]; intros st0; [by exists false, st0|].
    cbn [crawl]. unfold bind at 1.
    assert (∃ again st1, iteration py web self st0 = (Return again, st1)
                         ∧ files st0 ⊆ files st1 ∧ dirs st1 = dirs st0)
      as (again & st1 & -> & Hf & Hd).
    { unfold iteration, bind at 1, queue_get.
      destruct (queue st0) as [|url rest]; [by exists false, st0|].
      unfold bind at 1, get_visited. cbn [visited_urls set_queue].
      case_bool_decide; [by exists true, (set_queue st0 rest)|].
      unfold bind at 1, visited_add at 1. unfold bind at 1.
      set (st1 := set_visited _ _).
      destruct (fetch_page_page url st1) as (v & evs & -> & _).
      unfold bind at 1.
      destruct (handle_response_queue self url v (log st1 evs))
        as (fs & es & new & -> & _ & Hfs & _).
      eexists true, _. split; [reflexivity|]. split; [exact Hfs|done]. }
    destruct again; [|by exists true, st1].
    destruct (IH st1) as (ended & final & -> & Hf' & Hd').
    exists ended, final. split; [done|]. split; [by etrans|by rewrite Hd']. }
  destruct (Hcrawl rounds (set_queue st (queue st ++ [base_url self])))
    as (ended & final & -> & Hf & Hd).
  by split.
Qed.

End CrawlMore.

(** X14 on the home page of the small site: the one link of the page
    is put on the queue. *)
Lemma run_enqueues_extracted_witness :
  let self := {| base_url := Scenario.seed; domain := "example.com";
                 target_extensions := [".pdf"] |} in
  let response := Scenario.html Scenario.home_html in
  status_code response = 200
  ∧ PyStr.contains (PyStr.lower (default "" (content_type response))) "text/html" = true
  ∧ ∃ links st',
      extract_links_and_files Scenario.site_py Scenario.site self (text response)
        Scenario.seed Scenario.fresh = (Return links, st')
      ∧ handle_response Scenario.site_py Scenario.site self Scenario.seed
          (Some response) Scenario.fresh
        = (Return tt, set_queue st' (queue st' ++ links)).
Proof.
  intros self response. split; [reflexivity|]. split; [reflexivity|].
  exact (run_enqueues_extracted Scenario.site_py Scenario.site self Scenario.seed
           response Scenario.fresh eq_refl eq_refl).
Defined.

(** X15 on the small site: two rounds from the seed. *)
Lemma scraper_stays_on_host_witness :
  let self := {| base_url := Scenario.seed; domain := "example.com";
                 target_extensions := [".pdf"] |} in
  domain self = netloc (urlparse Scenario.site_py (base_url self))
  ∧ queue Scenario.fresh = []
  ∧ ∃ es,
      trace (run Scenario.site_py Scenario.site self 2 Scenario.fresh).2
      = trace Scenario.fresh ++ es
      ∧ Forall (λ url, netloc (urlparse Scenario.site_py url) = domain self)
          (visits es)
      ∧ Forall (λ url, netloc (urlparse Scenario.site_py url) = domain self)
          (pages_requested es).
Proof.
  intros self.
  assert (domain self = netloc (urlparse Scenario.site_py (base_url self))) as Hdomain
    by (vm_compute; reflexivity).
  split; [exact Hdomain|]. split; [reflexivity|].
  exact (scraper_stays_on_host Scenario.site_py Scenario.site self 2 Scenario.fresh
           Hdomain eq_refl).
Defined.
